(** * Hazard-Monitoring-System: the Streamlit dashboard script [app.py]

    The script reads [hazards.csv] into a pandas DataFrame, offers a sidebar
    form that appends one report and rewrites the file, and renders charts and
    a styled table.  This development embeds the script's own logic
    ([load_data], [save_data], [style_severity], the submit handler, the two
    [value_counts] charts) over a small model of the pandas values it
    touches, and states the properties of the specification about it. *)

From Stdlib Require Import List String Ascii Bool Arith ZArith QArith Lia Sorted
  Permutation.
Import ListNotations.
Close Scope Q_scope.
Open Scope string_scope.
Open Scope list_scope.

Set Implicit Arguments.

(** ** The pandas values the script manipulates *)

Module Pandas.

(** A DataFrame cell: a float (a finite float is an exact rational; the script
    only tests coordinates for zero and stores them), a str, a Timestamp
    (nanoseconds since the epoch) or the missing value NaN. *)
Inductive cell : Type :=
| CFloat (q : Q)
| CStr (s : string)
| CTime (t : Z)
| CNaN.

(** [a == b] on cells; NaN equals nothing, itself included. *)
Definition cell_eqb (a b : cell) : bool :=
  match a, b with
  | CFloat x, CFloat y => Qeq_bool x y
  | CStr x, CStr y => String.eqb x y
  | CTime x, CTime y => Z.eqb x y
  | _, _ => false
  end.

Definition notna (a : cell) : bool :=
  match a with CNaN => false | _ => true end.

(** Column labels in order, and the rows, each aligned with the labels. *)
Record DataFrame : Type := mkDataFrame {
  columns : list string;
  rows : list (list cell)
}.

(** A Series as [style.apply(..., axis=1)] hands it to the callback: labels
    paired with the cells of one row. *)
Definition Series : Type := list (string * cell).

(** [len(df)] *)
Definition len (df : DataFrame) : nat := List.length (rows df).

(** [df.empty] *)
Definition empty (df : DataFrame) : bool :=
  match rows df with [] => true | _ => false end.

(** [pd.DataFrame(columns=cols)] *)
Definition DataFrame_columns (cols : list string) : DataFrame :=
  mkDataFrame cols [].

(** [pd.DataFrame([record])] for one dict: its keys become the columns. *)
Definition DataFrame_record (record : list (string * cell)) : DataFrame :=
  mkDataFrame (map fst record) [map snd record].

(** The cell of row [r] under label [c]; NaN when the row has no such label. *)
Fixpoint lookup (c : string) (cols : list string) (r : list cell) : cell :=
  match cols, r with
  | c' :: cols', v :: r' => if String.eqb c c' then v else lookup c cols' r'
  | _, _ => CNaN
  end.

Definition has_column (c : string) (cols : list string) : bool :=
  existsb (String.eqb c) cols.

(** Rows of [df] laid out on the labels [cols]. *)
Definition reindex (cols : list string) (df : DataFrame) : list (list cell) :=
  map (fun r => map (fun c => lookup c (columns df) r) cols) (rows df).

(** [pd.concat([a, b], ignore_index=True)]: the labels of [a], then those of
    [b] that [a] lacks; the rows of [a], then those of [b]; NaN where a frame
    has no such label. *)
Definition concat (a b : DataFrame) : DataFrame :=
  let cols :=
    columns a ++ filter (fun c => negb (has_column c (columns a))) (columns b) in
  mkDataFrame cols (reindex cols a ++ reindex cols b).

(** [df[c]]: the cells under label [c], [None] for KeyError. *)
Definition getcol (c : string) (df : DataFrame) : option (list cell) :=
  if has_column c (columns df)
  then Some (map (lookup c (columns df)) (rows df))
  else None.

Fixpoint assign (c : string) (cols : list string) (r : list cell) (v : cell)
  : list cell :=
  match cols, r with
  | c' :: cols', x :: r' =>
      if String.eqb c c' then v :: r' else x :: assign c cols' r' v
  | _, _ => r
  end.

(** [df[c] = vals] for a label the frame already has. *)
Definition setcol (c : string) (vals : list cell) (df : DataFrame) : DataFrame :=
  mkDataFrame (columns df)
    (map (fun rv => assign c (columns df) (fst rv) (snd rv))
         (combine (rows df) vals)).

(** The rows as the Series that [axis=1] iterates over. *)
Definition iterrows (df : DataFrame) : list Series :=
  map (combine (columns df)) (rows df).

(** [row[label]] followed by a comparison used as a condition: [None] stands
    for the exception (KeyError when the label is absent; with a repeated
    label the lookup yields a sub-Series whose truth value raises). *)
Definition getitem (row : Series) (label : string) : option cell :=
  match filter (fun kv => String.eqb (fst kv) label) row with
  | [kv] => Some (snd kv)
  | _ => None
  end.

(** *** [Series.value_counts()] with its defaults (sort=True, dropna=True) *)

Definition count_cell (v : cell) (l : list cell) : nat :=
  List.length (filter (cell_eqb v) l).

(** Distinct values in order of first appearance. *)
Fixpoint unique (l : list cell) : list cell :=
  match l with
  | [] => []
  | x :: t => x :: filter (fun y => negb (cell_eqb x y)) (unique t)
  end.

(** Insertion before the first entry whose count is not larger. *)
Fixpoint insert_desc (e : cell * nat) (l : list (cell * nat))
  : list (cell * nat) :=
  match l with
  | [] => [e]
  | h :: t => if Nat.leb (snd h) (snd e) then e :: l else h :: insert_desc e t
  end.

Definition sort_desc (l : list (cell * nat)) : list (cell * nat) :=
  fold_right insert_desc [] l.

(** One entry per distinct non-NaN value with its number of occurrences, most
    frequent first; equal counts are kept in order of first appearance. *)
Definition value_counts (col : list cell) : list (cell * nat) :=
  let vals := filter notna col in
  sort_desc (map (fun v => (v, count_cell v vals)) (unique vals)).

End Pandas.

Import Pandas.

(** ** The script *)

Module App.

(** Exceptions the script can meet. *)
Inductive exn : Type :=
| FileNotFoundError
| KeyError
| ValueError.

(** What the page shows: the Streamlit calls the modelled code makes. *)
Inductive Element : Type :=
| st_error (body : string)
| st_sidebar_error (body : string)
| st_sidebar_success (body : string)
| st_toast (body : string)
| st_info (body : string)
| st_bar_chart (data : list (cell * nat)).

(** The CSV text format is pandas' business, not the script's: the file
    contents and the three pandas calls that write, read and parse them are
    taken as given.  [read_csv] is the call on a file that exists. *)
Record Csv : Type := mkCsv {
  File : Type;
  to_csv : DataFrame -> File;
  read_csv : File -> exn + DataFrame;
  to_datetime : list cell -> option (list cell)
}.

(** A codec that keeps the table as it is, to run the script on examples. *)
Definition plain_csv : Csv :=
  mkCsv (fun df : DataFrame => df) (fun f => inr f) (fun col => Some col).

Definition DATA_FILE : string := "hazards.csv".

Definition schema : list string :=
  ["lat"; "lon"; "hazard_type"; "severity"; "status"; "reported_by"; "timestamp"].

(** Options of the two choice widgets of the form. *)
Definition hazard_type_options : list string :=
  ["Fire"; "Chemical Leak"; "Equipment Failure"; "Structural Risk"; "Other"].

Definition severity_options : list string :=
  ["Low"; "Medium"; "High"; "Critical"].

(** The values the form widgets hand to the script on one run. *)
Record Form : Type := mkForm {
  hazard_type : string;
  severity : string;
  lat : Q;
  lon : Q;
  reported_by : string;
  submit_button : bool
}.

(** What [st.selectbox] and [st.select_slider] guarantee: the value is one of
    the options. *)
Definition from_widgets (f : Form) : Prop :=
  In (hazard_type f) hazard_type_options /\ In (severity f) severity_options.

(** Python truth value of a str and of a float. *)
Definition truthy_str (s : string) : bool :=
  negb (String.eqb s "").

Definition truthy_float (x : Q) : bool :=
  negb (Qeq_bool x 0).

Section Script.

Variable io : Csv.

(** The file [hazards.csv] ([None] when absent) and the [st.cache_data] entry
    of [load_data]: the table the cached call returned and the elements it
    displayed, which a later hit displays again. *)
Record World : Type := mkWorld {
  hazards_csv : option (File io);
  cache : option (DataFrame * list Element)
}.

(** [pd.read_csv(DATA_FILE)] *)
Definition pd_read_csv (fs : option (File io)) : exn + DataFrame :=
  match fs with
  | None => inl FileNotFoundError
  | Some f => read_csv io f
  end.

(** The [try] block of [load_data]. *)
Definition load_data_try (fs : option (File io)) : exn + DataFrame :=
  match pd_read_csv fs with
  | inl e => inl e
  | inr df =>
      match getcol "timestamp" df with
      | None => inl KeyError
      | Some col =>
          match to_datetime io col with
          | None => inl ValueError
          | Some col' => inr (setcol "timestamp" col' df)
          end
      end
  end.

(** The body of [load_data]: the result or the exception that escapes, and
    what it displays. *)
Definition load_data_body (fs : option (File io))
  : (exn + DataFrame) * list Element :=
  match load_data_try fs with
  | inr df => (inr df, [])
  | inl FileNotFoundError =>
      (inr (DataFrame_columns schema),
       [st_error (String.append "Error: '"
          (String.append DATA_FILE
             "' not found. A new one will be created when you add a report."))])
  | inl e => (inl e, [])
  end.

(** [load_data()] under [@st.cache_data]: on a hit the cached table is
    returned without running the body and the elements of the cached call
    are displayed again; a result is cached, with what the body displayed,
    when the body returns. *)
Definition load_data (w : World) : (exn + DataFrame) * World * list Element :=
  match cache w with
  | Some (df, shown) => (inr df, w, shown)
  | None =>
      match load_data_body (hazards_csv w) with
      | (inr df, shown) =>
          (inr df, mkWorld (hazards_csv w) (Some (df, shown)), shown)
      | (inl e, shown) => (inl e, w, shown)
      end
  end.

(** [save_data(dataframe)]: rewrite the file, clear the cache. *)
Definition save_data (dataframe : DataFrame) (w : World) : World :=
  mkWorld (Some (to_csv io dataframe)) None.

(** The state after the form block: the script's [df], the world, what the
    block displayed, and whether it ended in [st.rerun()]. *)
Record Outcome : Type := mkOutcome {
  out_df : DataFrame;
  out_world : World;
  out_shown : list Element;
  out_rerun : bool
}.

(** The guard of the handler: [not reported_by or not lat or not lon]. *)
Definition fields_missing (f : Form) : bool :=
  negb (truthy_str (reported_by f))
  || negb (truthy_float (lat f))
  || negb (truthy_float (lon f)).

(** The dict of the new report; [now] is what [pd.Timestamp.now()] reads. *)
Definition new_record (now : Z) (f : Form) : list (string * cell) :=
  [("lat", CFloat (lat f));
   ("lon", CFloat (lon f));
   ("hazard_type", CStr (hazard_type f));
   ("severity", CStr (severity f));
   ("status", CStr "Active");
   ("reported_by", CStr (reported_by f));
   ("timestamp", CTime now)].

(** [if submit_button: ...] inside the sidebar form. *)
Definition submit_handler (now : Z) (f : Form) (df : DataFrame) (w : World)
  : Outcome :=
  if submit_button f then
    if fields_missing f then
      mkOutcome df w [st_sidebar_error "Please fill in all fields."] false
    else
      let new_report := DataFrame_record (new_record now f) in
      let df := concat df new_report in
      let w := save_data df w in
      mkOutcome df w
        [st_sidebar_success "Hazard reported successfully!";
         st_toast "Dashboard refreshing..."]
        true
  else mkOutcome df w [] false.

(** One of the two chart cards: [st.bar_chart(df[col].value_counts())] when
    the table has rows, a notice otherwise; [inl] when [df[col]] raises. *)
Definition chart_card (col : string) (df : DataFrame) : exn + Element :=
  if negb (empty df) then
    match getcol col df with
    | None => inl KeyError
    | Some cells => inr (st_bar_chart (value_counts cells))
    end
  else inr (st_info "No data for bar chart.").

End Script.

(** [style_severity(row)]: one style per cell of the row. *)
Definition style_severity (row : Series) : option (list string) :=
  match getitem row "severity" with
  | None => None
  | Some severity =>
      if cell_eqb severity (CStr "Critical") then
        Some (repeat "background-color: #ffadad" (List.length row))
      else if cell_eqb severity (CStr "High") then
        Some (repeat "background-color: #ffd6a5" (List.length row))
      else if cell_eqb severity (CStr "Medium") then
        Some (repeat "background-color: #fdffb6" (List.length row))
      else
        Some (repeat "" (List.length row))
  end.

End App.

Import App.

(** ** Vocabulary of the properties *)

(** A table with the fixed seven labels and one cell per label in each row. *)
Definition well_formed (df : DataFrame) : Prop :=
  columns df = schema /\
  Forall (fun r => List.length r = List.length schema) (rows df).

(** The cell under label [c] in the last row of [df]. *)
Definition last_field (c : string) (df : DataFrame) : cell :=
  lookup c (columns df) (last (rows df) []).

(** The handler turned the form down: nothing changed and only the notice of
    the guard is shown. *)
Definition rejected (io : Csv) (o : Outcome io) (df : DataFrame) (w : World io)
  : Prop :=
  out_df o = df /\ out_world o = w /\ out_rerun o = false /\
  out_shown o = [st_sidebar_error "Please fill in all fields."].

(** The handler took the form: the report of [f] stamped [now] is the last
    row of the script's table, the file holds that table, the cache is
    cleared and the script reruns. *)
Definition accepted (io : Csv) (o : Outcome io) (now : Z) (f : Form)
  (df : DataFrame) : Prop :=
  out_df o = concat df (DataFrame_record (new_record now f)) /\
  (forall c, In c schema ->
     last_field c (out_df o) =
     lookup c (map fst (new_record now f)) (map snd (new_record now f))) /\
  hazards_csv (out_world o) = Some (to_csv io (out_df o)) /\
  cache (out_world o) = None /\
  out_rerun o = true.

(** The coordinate ranges the specification asks for. *)
Definition in_range (f : Form) : bool :=
  Qle_bool (-90) (lat f) && Qle_bool (lat f) 90
  && Qle_bool (-180) (lon f) && Qle_bool (lon f) 180.

(** Spaces, tabs and line breaks, as [str.strip()] removes them. *)
Definition is_space (a : ascii) : bool :=
  existsb (Nat.eqb (nat_of_ascii a)) [9; 10; 11; 12; 13; 32].

Fixpoint whitespace_only (s : string) : bool :=
  match s with
  | EmptyString => true
  | String a s' => is_space a && whitespace_only s'
  end.

(** The spelling of the hazard types in the specification's data model. *)
Definition spec_hazard_types : list string :=
  ["Fire"; "ChemicalLeak"; "EquipmentFailure"; "StructuralRisk"; "Other"].

(** [keys] runs through [order] from left to right, skipping what is absent. *)
Fixpoint in_order (keys : list cell) (order : list string) : bool :=
  match keys, order with
  | [], _ => true
  | _ :: _, [] => false
  | k :: keys', s :: order' =>
      if cell_eqb k (CStr s) then in_order keys' order' else in_order keys order'
  end.

(** Counts never increase along a mapping. *)
Definition descending (vc : list (cell * nat)) : Prop :=
  StronglySorted (fun a b => snd b <= snd a) vc.

(** Sample data. *)
Definition empty_table : DataFrame := DataFrame_columns schema.

Definition cold_start : World plain_csv := mkWorld plain_csv None None.

Definition worker_a (la lo : Q) : Form :=
  mkForm "Fire" "Critical" la lo "Worker A" true.

Definition mumbai : Form := worker_a (19076 # 1000)%Q (728777 # 10000)%Q.

Definition equator : Form := worker_a 0%Q (728777 # 10000)%Q.

Definition off_the_globe : Form := worker_a 100%Q 200%Q.

Definition blank_reporter : Form :=
  mkForm "Fire" "Critical" (19076 # 1000)%Q (728777 # 10000)%Q " " true.

Definition nameless : Form :=
  mkForm "Fire" "Critical" (19076 # 1000)%Q (728777 # 10000)%Q "" true.

Definition chemical_leak : Form :=
  mkForm "Chemical Leak" "High" (19076 # 1000)%Q (728777 # 10000)%Q "Worker A" true.

Definition report (ty sev : string) (t : Z) : list cell :=
  [CFloat (19076 # 1000)%Q; CFloat (728777 # 10000)%Q; CStr ty; CStr sev;
   CStr "Active"; CStr "Worker A"; CTime t].

Definition three_reports : DataFrame :=
  mkDataFrame schema
    [report "Fire" "Low" 1; report "Other" "Critical" 2;
     report "Other" "Critical" 3].

Definition high_row : Series := combine schema (report "Fire" "High" 1).

(** ** The rest of the page *)

(** [col == s], cell by cell. *)
Definition eq_mask (col : list cell) (s : string) : list bool :=
  map (fun v => cell_eqb v (CStr s)) col.

(** [col.isin(values)] *)
Definition isin (col : list cell) (values : list string) : list bool :=
  map (fun v => existsb (fun s => cell_eqb v (CStr s)) values) col.

Fixpoint select_rows (mask : list bool) (rs : list (list cell))
  : list (list cell) :=
  match mask, rs with
  | b :: mask', r :: rs' =>
      if b then r :: select_rows mask' rs' else select_rows mask' rs'
  | _, _ => []
  end.

(** [df[mask]]: the rows where the mask holds. *)
Definition getrows (mask : list bool) (df : DataFrame) : DataFrame :=
  mkDataFrame (columns df) (select_rows mask (rows df)).

(** The three figures of the overview card; [inl] when the column lookup
    raises. *)
Definition total_reports (df : DataFrame) : nat := len df.

Definition active_incidents (df : DataFrame) : exn + nat :=
  match getcol "status" df with
  | None => inl KeyError
  | Some col => inr (len (getrows (eq_mask col "Active") df))
  end.

Definition high_severity (df : DataFrame) : exn + nat :=
  match getcol "severity" df with
  | None => inl KeyError
  | Some col => inr (len (getrows (isin col ["High"; "Critical"]) df))
  end.

(** The colour expression of the map layer, on the severity of one row. *)
Definition get_fill_color (severity : cell) : list Z :=
  if cell_eqb severity (CStr "Critical") then [255; 0; 0]%Z
  else if cell_eqb severity (CStr "High") then [255; 140; 0]%Z
  else if cell_eqb severity (CStr "Medium") then [255; 255; 0]%Z
  else [0; 128; 0]%Z.

(** All the results, or nothing when one call raised. *)
Fixpoint collect (A : Type) (l : list (option A)) : option (list A) :=
  match l with
  | [] => Some []
  | None :: _ => None
  | Some x :: l' =>
      match collect l' with
      | None => None
      | Some xs => Some (x :: xs)
      end
  end.

(** [df.style.apply(func, axis=1)]: the styles of the rows, row by row. *)
Definition style_apply (func : Series -> option (list string)) (df : DataFrame)
  : option (list (list string)) :=
  collect (map func (iterrows df)).

(** The widgets after [clear_on_submit] and outside a submission: their
    default values, the button not pressed. *)
Definition default_form : Form :=
  mkForm "Fire" "Medium" (205937 # 10000)%Q (789629 # 10000)%Q "" false.

Section Runs.

Variable io : Csv.

(** One execution of the script as far as the form block: [df = load_data()]
    and the handler.  An exception of [load_data] ends the run. *)
Definition script_run (now : Z) (f : Form) (w : World io) : exn + Outcome io :=
  match load_data w with
  | (inl e, _, _) => inl e
  | (inr df, w1, shown) =>
      let o := submit_handler now f df w1 in
      inr (mkOutcome (out_df o) (out_world o) (shown ++ out_shown o)
             (out_rerun o))
  end.

(** The world a run leaves, and whether it asked for a rerun; a run that
    raised leaves the world as it found it. *)
Definition run (now : Z) (f : Form) (w : World io) : World io * bool :=
  match script_run now f w with
  | inl _ => (w, false)
  | inr o => (out_world o, out_rerun o)
  end.

(** One action of the user: the run it triggers and, after [st.rerun()],
    the run that follows with the cleared form. *)
Definition interaction (now : Z) (f : Form) (w : World io) : World io :=
  let (w1, rerun) := run now f w in
  if rerun then fst (run now default_form w1) else w1.

(** A sequence of actions, each with the clock reading of its run. *)
Definition session (inputs : list (Z * Form)) (w : World io) : World io :=
  fold_left (fun w nf => interaction (fst nf) (snd nf) w) inputs w.

(** The store gives back what was saved: reading and parsing the file
    written for a well-formed table yields that table. *)
Definition faithful : Prop :=
  forall df, well_formed df ->
    load_data_try io (Some (to_csv io df)) = inr df.

End Runs.

(** The form passes the handler: pressed, and nothing missing. *)
Definition passes (f : Form) : bool :=
  submit_button f && negb (fields_missing f).

(** Total height of the bars of a chart. *)
Definition bars_total (vc : list (cell * nat)) : nat :=
  list_sum (map snd vc).

(** The table every cell of which is in place. *)
Definition rectangular (df : DataFrame) : Prop :=
  Forall (fun r => List.length r = List.length (columns df)) (rows df).


(** *** pandas' CSV store and missing values *)

(** The strings [read_csv] takes for a missing value by default. *)
Definition na_values : list string :=
  [""; "#N/A"; "#N/A N/A"; "#NA"; "-1.#IND"; "-1.#QNAN"; "-NaN"; "-nan";
   "1.#IND"; "1.#QNAN"; "<NA>"; "N/A"; "NA"; "NULL"; "NaN"; "None"; "n/a";
   "nan"; "null"].

(** A field as [read_csv] reads it: missing when its text is one of
    [na_values]. *)
Definition read_field (c : cell) : cell :=
  match c with
  | CStr s => if existsb (String.eqb s) na_values then CNaN else c
  | _ => c
  end.

(** The store of pandas as far as missing values go.  [to_csv] writes a str
    as it is and NaN as the empty field; [read_csv] reads every field
    through [read_field].  The text of numbers and of timestamps is taken to
    be read back as the value that was written, and any other text as that
    text. *)
Definition na_csv : Csv :=
  mkCsv (fun df : DataFrame => df)
    (fun f => inr (mkDataFrame (columns f) (map (map read_field) (rows f))))
    (fun col => Some col).

(** *** Tables of reports *)

(** The cells of a row under hazard_type, severity, status and timestamp. *)
Definition kept (r : list cell) : list cell :=
  map (fun c => lookup c schema r)
    ["hazard_type"; "severity"; "status"; "timestamp"].

(** A row as the handler writes it, whatever its coordinates and reporter
    have become: seven cells, a hazard type and a severity of the widgets,
    the status Active, a timestamp. *)
Definition report_like (r : list cell) : Prop :=
  List.length r = List.length schema /\
  (exists s, lookup "hazard_type" schema r = CStr s /\
             In s hazard_type_options) /\
  (exists s, lookup "severity" schema r = CStr s /\ In s severity_options) /\
  lookup "status" schema r = CStr "Active" /\
  (exists t, lookup "timestamp" schema r = CTime t).

Definition report_table (df : DataFrame) : Prop :=
  columns df = schema /\ Forall report_like (rows df).

(** What the sessions below ask of the store: the file written for a table
    of reports loads, as a table of reports with the same rows in number and
    order, each with the hazard type, severity, status and timestamp it was
    written with.  Coordinates and reporter may come back changed. *)
Definition keeps_reports (io : Csv) : Prop :=
  forall df, report_table df ->
    exists df',
      load_data_try io (Some (to_csv io df)) = inr df' /\
      report_table df' /\
      map kept (rows df') = map kept (rows df).

(** The world carries the reports [K] (their kept cells, row by row): in
    the file if there is one, and in the cached table if there is one. *)
Definition tracks (io : Csv) (w : World io) (K : list (list cell)) : Prop :=
  match hazards_csv w with
  | None => K = []
  | Some f =>
      exists df, f = to_csv io df /\ report_table df /\
                 map kept (rows df) = K
  end /\
  match cache w with
  | None => True
  | Some (d, _) => report_table d /\ map kept (rows d) = K
  end.

(** The kept cells of the report an accepted form adds. *)
Definition kept_of (nf : Z * Form) : list cell :=
  [CStr (hazard_type (snd nf)); CStr (severity (snd nf)); CStr "Active";
   CTime (fst nf)].

(** The forms of a sequence of actions that pass the handler. *)
Definition passing (inputs : list (Z * Form)) : list (Z * Form) :=
  filter (fun nf => passes (snd nf)) inputs.

Definition na_reporter : Form :=
  mkForm "Fire" "Critical" (19076 # 1000)%Q (728777 # 10000)%Q "NA" true.

Definition three_actions : list (Z * Form) :=
  [(7%Z, mumbai); (8%Z, equator); (9%Z, na_reporter)].

(** A file without the timestamp column, and one world that holds it. *)
Definition two_columns : DataFrame :=
  mkDataFrame ["lat"; "lon"] [[CFloat (19076 # 1000)%Q; CFloat (728777 # 10000)%Q]].

Definition stored (df : DataFrame) : World plain_csv :=
  mkWorld plain_csv (Some df) None.

(** ** Facts about the pandas model *)

Unset Implicit Arguments.

Lemma cell_eqb_str (v : cell) (s : string) :
  cell_eqb v (CStr s) = true <-> v = CStr s.
Proof.
  destruct v as [q | s' | t | ]; simpl; split; intro H; try discriminate.
  - apply String.eqb_eq in H. now subst.
  - inversion H. apply String.eqb_refl.
Qed.

Lemma cell_eqb_refl (v : cell) : notna v = true -> cell_eqb v v = true.
Proof.
  destruct v as [q | s | t | ]; simpl; intro H.
  - apply Qeq_bool_iff. reflexivity.
  - apply String.eqb_refl.
  - apply Z.eqb_refl.
  - discriminate.
Qed.

Lemma has_column_In (c : string) (cols : list string) :
  has_column c cols = true <-> In c cols.
Proof.
  unfold has_column. rewrite existsb_exists. split.
  - intros [x [Hx Heq]]. apply String.eqb_eq in Heq. now subst.
  - intro H. exists c. split; [assumption | apply String.eqb_refl].
Qed.

(** A row computed label by label gives back, under a label it has, the cell
    computed for that label. *)
Lemma lookup_map (g : string -> cell) (c : string) (cols : list string) :
  In c cols -> lookup c cols (map g cols) = g c.
Proof.
  induction cols as [| c' cols IH]; simpl; intro H; [contradiction |].
  destruct (String.eqb c c') eqn:E.
  - apply String.eqb_eq in E. now subst.
  - destruct H as [H | H].
    + subst. rewrite String.eqb_refl in E. discriminate.
    + now apply IH.
Qed.

Lemma concat_columns_In (a b : DataFrame) (c : string) :
  In c (columns b) -> In c (columns (concat a b)).
Proof.
  intro H. simpl. apply in_or_app.
  destruct (has_column c (columns a)) eqn:E.
  - left. now apply has_column_In.
  - right. apply filter_In. split; [assumption | now rewrite E].
Qed.

(** Under a label of the appended record, the last row of the concatenation
    holds the record's cell. *)
Lemma concat_last_field (a : DataFrame) (record : list (string * cell))
  (c : string) :
  In c (map fst record) ->
  last_field c (concat a (DataFrame_record record)) =
  lookup c (map fst record) (map snd record).
Proof.
  intro H. unfold last_field.
  assert (Hin : In c (columns (concat a (DataFrame_record record))))
    by now apply concat_columns_In.
  simpl in *. unfold reindex at 2. simpl. rewrite last_last.
  now rewrite lookup_map.
Qed.

(** On a well-formed table, appending a record with the seven labels adds
    its cells as one more row and moves nothing else. *)
Lemma concat_well_formed (df : DataFrame) (record : list (string * cell)) :
  well_formed df -> map fst record = schema ->
  concat df (DataFrame_record record) =
  mkDataFrame schema (rows df ++ [map snd record]).
Proof.
  intros [Hc Hr] Hk. destruct df as [cols rs]. simpl in *. subst cols.
  unfold concat, reindex. simpl. rewrite Hk. simpl. f_equal. f_equal.
  - rewrite <- (map_id rs) at 2. apply map_ext_in. intros r Hin.
    rewrite Forall_forall in Hr. specialize (Hr r Hin).
    do 8 (destruct r as [| ? r]; try discriminate). reflexivity.
  - destruct record as [| [k1 v1] record]; [discriminate |].
    do 7 (destruct record as [| [? ?] record]; try discriminate).
    simpl in Hk. injection Hk as -> -> -> -> -> -> ->. reflexivity.
Qed.

Lemma insert_desc_In (e x : cell * nat) (l : list (cell * nat)) :
  In x (insert_desc e l) <-> x = e \/ In x l.
Proof.
  induction l as [| h t IH]; simpl.
  - intuition.
  - destruct (Nat.leb (snd h) (snd e)); simpl; [intuition |].
    rewrite IH. intuition.
Qed.

Lemma sort_desc_In (x : cell * nat) (l : list (cell * nat)) :
  In x (sort_desc l) <-> In x l.
Proof.
  induction l as [| e l IH]; simpl; [reflexivity |].
  rewrite insert_desc_In, IH. intuition.
Qed.

Lemma insert_desc_sorted (e : cell * nat) (l : list (cell * nat)) :
  descending l -> descending (insert_desc e l).
Proof.
  unfold descending. intro H. induction H as [| h t Ht IH Hh]; simpl.
  - constructor; constructor.
  - destruct (Nat.leb (snd h) (snd e)) eqn:E.
    + apply Nat.leb_le in E. constructor.
      * now constructor.
      * constructor; [assumption |].
        rewrite Forall_forall in *. intros x Hx. specialize (Hh x Hx). lia.
    + apply Nat.leb_gt in E. constructor; [assumption |].
      rewrite Forall_forall in *. intros x Hx.
      rewrite insert_desc_In in Hx. destruct Hx as [-> | Hx]; [lia | auto].
Qed.

Lemma sort_desc_sorted (l : list (cell * nat)) : descending (sort_desc l).
Proof.
  induction l as [| e l IH]; simpl.
  - constructor.
  - now apply insert_desc_sorted.
Qed.

Lemma unique_In (v : cell) (l : list cell) : In v (unique l) -> In v l.
Proof.
  revert v. induction l as [| x t IH]; simpl; intros v H; [assumption |].
  destruct H as [H | H]; [now left |].
  apply filter_In in H. right. now apply IH.
Qed.

(** Every value of the list is represented among its distinct values. *)
Lemma unique_covers (v : cell) (l : list cell) :
  In v l -> notna v = true ->
  exists u, In u (unique l) /\ cell_eqb u v = true.
Proof.
  induction l as [| x t IH]; simpl; intros H Hv; [contradiction |].
  destruct H as [-> | H].
  - exists v. split; [now left | now apply cell_eqb_refl].
  - destruct (IH H Hv) as [u [Hu Huv]].
    destruct (cell_eqb x u) eqn:E.
    + exists x. split; [now left |].
      destruct x as [a | a | a | ], u as [b | b | b | ], v as [c | c | c | ];
        simpl in *; try discriminate.
      * apply Qeq_bool_iff in E, Huv. apply Qeq_bool_iff.
        now rewrite E.
      * apply String.eqb_eq in E, Huv. subst. apply String.eqb_refl.
      * apply Z.eqb_eq in E, Huv. subst. apply Z.eqb_refl.
    + exists u. split; [| assumption].
      right. apply filter_In. split; [assumption | now rewrite E].
Qed.

(** What [value_counts] returns: counts in descending order; every entry is
    a value of the column with its number of occurrences, at least one; and
    every non-NaN value of the column has an entry. *)
Lemma value_counts_spec (col : list cell) :
  descending (value_counts col) /\
  (forall v n, In (v, n) (value_counts col) ->
     In v col /\ notna v = true /\
     n = count_cell v (filter notna col) /\ 1 <= n) /\
  (forall v, In v col -> notna v = true ->
     exists u n, In (u, n) (value_counts col) /\ cell_eqb u v = true).
Proof.
  unfold value_counts. split; [apply sort_desc_sorted | split].
  - intros v n H. rewrite sort_desc_In in H. apply in_map_iff in H.
    destruct H as [u [Heq Hu]]. inversion Heq; subst; clear Heq.
    apply unique_In in Hu. pose proof Hu as Hf.
    apply filter_In in Hf. destruct Hf as [Hin Hna].
    repeat split; try assumption.
    unfold count_cell.
    assert (Hm : In v (filter (cell_eqb v) (filter notna col))).
    { apply filter_In. split; [assumption | now apply cell_eqb_refl]. }
    destruct (filter (cell_eqb v) (filter notna col)); [contradiction | simpl; lia].
  - intros v Hin Hna.
    destruct (unique_covers v (filter notna col)) as [u [Hu Huv]];
      [apply filter_In; now split | assumption |].
    exists u, (count_cell u (filter notna col)). split; [| assumption].
    rewrite sort_desc_In. apply in_map_iff. now exists u.
Qed.

(** ** The submit handler *)

Lemma truthy_str_iff (s : string) : truthy_str s = true <-> s <> "".
Proof.
  unfold truthy_str. rewrite negb_true_iff. split.
  - intros H ->. discriminate.
  - intro H. destruct s; [congruence | reflexivity].
Qed.

Lemma truthy_float_iff (x : Q) : truthy_float x = true <-> ~ (x == 0)%Q.
Proof.
  unfold truthy_float. rewrite negb_true_iff, <- not_true_iff_false.
  now rewrite Qeq_bool_iff.
Qed.

(** The guard lets a form through exactly when the reporter is a non-empty
    string and neither coordinate is zero. *)
Lemma fields_missing_false (f : Form) :
  fields_missing f = false <->
  reported_by f <> "" /\ ~ (lat f == 0)%Q /\ ~ (lon f == 0)%Q.
Proof.
  unfold fields_missing.
  rewrite !orb_false_iff, !negb_false_iff.
  rewrite truthy_str_iff, !truthy_float_iff. tauto.
Qed.

Lemma handler_rejects (io : Csv) (now : Z) (f : Form) (df : DataFrame)
  (w : World io) :
  submit_button f = true -> fields_missing f = true ->
  rejected (submit_handler now f df w) df w.
Proof.
  intros Hs Hm. unfold submit_handler. rewrite Hs, Hm.
  repeat split.
Qed.

Lemma handler_accepts (io : Csv) (now : Z) (f : Form) (df : DataFrame)
  (w : World io) :
  submit_button f = true -> fields_missing f = false ->
  accepted (submit_handler now f df w) now f df.
Proof.
  intros Hs Hm. unfold submit_handler. rewrite Hs, Hm.
  unfold accepted. simpl out_df. simpl out_world. simpl out_rerun.
  repeat split.
  intros c Hc. now apply concat_last_field.
Qed.

(** Whatever the guard decides, a form that is not submitted changes
    nothing. *)
Lemma handler_idle (io : Csv) (now : Z) (f : Form) (df : DataFrame)
  (w : World io) :
  submit_button f = false ->
  submit_handler now f df w = mkOutcome df w [] false.
Proof.
  intro Hs. unfold submit_handler. now rewrite Hs.
Qed.

(** On a well-formed table an accepted report is one more row, in the
    order of the schema, after the rows that were there; the table stays
    well formed. *)
Lemma handler_appends (io : Csv) (now : Z) (f : Form) (df : DataFrame)
  (w : World io) :
  submit_button f = true -> fields_missing f = false -> well_formed df ->
  out_df (submit_handler now f df w)
  = mkDataFrame schema (rows df ++ [map snd (new_record now f)]) /\
  len (out_df (submit_handler now f df w)) = S (len df) /\
  well_formed (out_df (submit_handler now f df w)).
Proof.
  intros Hs Hm Hw.
  destruct (handler_accepts io now f df w Hs Hm) as [Hd _].
  rewrite Hd, (concat_well_formed df (new_record now f) Hw eq_refl).
  split; [reflexivity |]. split.
  - unfold len. simpl. rewrite length_app. simpl. lia.
  - split; [reflexivity |]. simpl. apply Forall_app. split.
    + exact (proj2 Hw).
    + repeat constructor.
Qed.

(** A submitted form with a zero latitude or a zero longitude never passes
    the guard. *)
Lemma zero_coordinate_is_rejected (io : Csv) (now : Z) (f : Form)
  (df : DataFrame) (w : World io) :
  submit_button f = true -> (lat f == 0)%Q \/ (lon f == 0)%Q ->
  rejected (submit_handler now f df w) df w.
Proof.
  intros Hs Hz. apply handler_rejects; [assumption |].
  destruct (fields_missing f) eqn:E; [reflexivity |].
  apply fields_missing_false in E. tauto.
Qed.

(** C1, evaluated on the code: a report from latitude 0 whose other fields
    are in order (coordinates in range, a named reporter, widget values) is
    turned down by the guard with "Please fill in all fields."; the table and
    the file stay as they were, so the report is neither appended nor
    persisted. *)
Theorem equator_report_is_rejected (io : Csv) (now : Z) (df : DataFrame)
  (w : World io) :
  in_range equator = true /\
  whitespace_only (reported_by equator) = false /\
  from_widgets equator /\
  fields_missing equator = true /\
  rejected (submit_handler now equator df w) df w.
Proof.
  split; [reflexivity |]. split; [reflexivity |].
  split; [split; simpl; tauto |]. split; [reflexivity |].
  now apply handler_rejects.
Qed.

(** C2 as stated fails: a report with latitude 100 and longitude 200, both
    outside the ranges, passes the guard and is written to the file. *)
Lemma out_of_range_report_is_persisted :
  in_range off_the_globe = false /\
  out_rerun (submit_handler 7 off_the_globe empty_table cold_start) = true /\
  hazards_csv (out_world (submit_handler 7 off_the_globe empty_table cold_start))
  = Some (mkDataFrame schema
            [[CFloat 100%Q; CFloat 200%Q; CStr "Fire"; CStr "Critical";
              CStr "Active"; CStr "Worker A"; CTime 7]]).
Proof.
  repeat split.
Qed.

(** C2, amended: the handler has no range test.  Every submitted form with a
    non-empty reporter and non-zero latitude and longitude is accepted,
    whatever the coordinates, inside or outside [-90, 90] and [-180, 180]:
    the report is appended with the coordinates as entered and the table is
    written to the file. *)
Theorem nonzero_coordinates_are_accepted (io : Csv) (now : Z) (f : Form)
  (df : DataFrame) (w : World io) :
  submit_button f = true ->
  reported_by f <> "" -> ~ (lat f == 0)%Q -> ~ (lon f == 0)%Q ->
  accepted (submit_handler now f df w) now f df /\
  last_field "lat" (out_df (submit_handler now f df w)) = CFloat (lat f) /\
  last_field "lon" (out_df (submit_handler now f df w)) = CFloat (lon f).
Proof.
  intros Hs Hr Hla Hlo.
  assert (Hm : fields_missing f = false) by now apply fields_missing_false.
  pose proof (handler_accepts io now f df w Hs Hm) as Ha.
  split; [assumption |].
  destruct Ha as [_ [Hf _]].
  split; rewrite Hf; simpl; tauto.
Qed.

Lemma nonzero_coordinates_are_accepted_witness :
  submit_button off_the_globe = true /\
  reported_by off_the_globe <> "" /\
  ~ (lat off_the_globe == 0)%Q /\ ~ (lon off_the_globe == 0)%Q /\
  in_range off_the_globe = false /\
  accepted (submit_handler 7 off_the_globe empty_table cold_start) 7
    off_the_globe empty_table /\
  last_field "lat"
    (out_df (submit_handler 7 off_the_globe empty_table cold_start))
  = CFloat (lat off_the_globe) /\
  last_field "lon"
    (out_df (submit_handler 7 off_the_globe empty_table cold_start))
  = CFloat (lon off_the_globe).
Proof.
  assert (Hr : reported_by off_the_globe <> "") by discriminate.
  assert (Hla : ~ (lat off_the_globe == 0)%Q) by (intro H; discriminate H).
  assert (Hlo : ~ (lon off_the_globe == 0)%Q) by (intro H; discriminate H).
  split; [reflexivity |]. split; [exact Hr |]. split; [exact Hla |].
  split; [exact Hlo |]. split; [reflexivity |].
  exact (nonzero_coordinates_are_accepted plain_csv 7 off_the_globe
           empty_table cold_start eq_refl Hr Hla Hlo).
Defined.

(** C3 as stated fails: a reporter made of one space is whitespace-only, yet
    the form passes the guard and the report is written with that name. *)
Lemma blank_reporter_is_persisted :
  whitespace_only (reported_by blank_reporter) = true /\
  out_rerun (submit_handler 7 blank_reporter empty_table cold_start) = true /\
  hazards_csv (out_world (submit_handler 7 blank_reporter empty_table cold_start))
  = Some (mkDataFrame schema
            [[CFloat (19076 # 1000)%Q; CFloat (728777 # 10000)%Q; CStr "Fire";
              CStr "Critical"; CStr "Active"; CStr " "; CTime 7]]).
Proof.
  repeat split.
Qed.

(** C3, amended: the reporter is tested as entered, without trimming.  A
    submitted form whose reporter is the empty string is rejected: the table
    and the file stay as they were and the notice of the guard is shown. *)
Theorem empty_reporter_is_rejected (io : Csv) (now : Z) (f : Form)
  (df : DataFrame) (w : World io) :
  submit_button f = true -> reported_by f = "" ->
  fields_missing f = true /\ rejected (submit_handler now f df w) df w.
Proof.
  intros Hs He.
  assert (Hm : fields_missing f = true)
    by (unfold fields_missing; now rewrite He).
  split; [assumption | now apply handler_rejects].
Qed.

Lemma empty_reporter_is_rejected_witness :
  submit_button nameless = true /\ reported_by nameless = "" /\
  fields_missing nameless = true /\
  rejected (submit_handler 7 nameless empty_table cold_start)
    empty_table cold_start.
Proof.
  split; [reflexivity |]. split; [reflexivity |].
  apply (empty_reporter_is_rejected plain_csv 7 nameless empty_table cold_start);
    reflexivity.
Defined.

(** C4: a form that fails the handler's validation writes nothing.  The
    file, the cache and the script's table are what they were, row for row
    and in number, and a later load sees what it would have seen before. *)
Theorem rejected_submit_writes_nothing (io : Csv) (now : Z) (f : Form)
  (df : DataFrame) (w : World io) :
  fields_missing f = true ->
  out_world (submit_handler now f df w) = w /\
  hazards_csv (out_world (submit_handler now f df w)) = hazards_csv w /\
  out_df (submit_handler now f df w) = df /\
  rows (out_df (submit_handler now f df w)) = rows df /\
  len (out_df (submit_handler now f df w)) = len df /\
  load_data (out_world (submit_handler now f df w)) = load_data w /\
  out_rerun (submit_handler now f df w) = false.
Proof.
  intro Hm. unfold submit_handler. rewrite Hm.
  destruct (submit_button f); repeat split.
Qed.

Lemma rejected_submit_writes_nothing_witness :
  fields_missing nameless = true /\
  out_world (submit_handler 7 nameless three_reports
               (mkWorld plain_csv (Some three_reports) None))
  = mkWorld plain_csv (Some three_reports) None /\
  len (out_df (submit_handler 7 nameless three_reports
                 (mkWorld plain_csv (Some three_reports) None)))
  = len three_reports.
Proof.
  split; [reflexivity |].
  destruct (rejected_submit_writes_nothing plain_csv 7 nameless three_reports
              (mkWorld plain_csv (Some three_reports) None) eq_refl)
    as [H1 [_ [_ [_ [H2 _]]]]].
  split; assumption.
Defined.

(** C6 as stated fails: the second option of the hazard-type widget is
    written to the file as "Chemical Leak", with a space, which is none of
    the five spellings of the specification. *)
Lemma chemical_leak_is_spelled_with_a_space :
  from_widgets chemical_leak /\
  out_rerun (submit_handler 7 chemical_leak empty_table cold_start) = true /\
  hazards_csv (out_world (submit_handler 7 chemical_leak empty_table cold_start))
  = Some (out_df (submit_handler 7 chemical_leak empty_table cold_start)) /\
  last_field "hazard_type"
    (out_df (submit_handler 7 chemical_leak empty_table cold_start))
  = CStr "Chemical Leak" /\
  ~ In "Chemical Leak" spec_hazard_types.
Proof.
  split; [split; simpl; tauto |].
  repeat split.
  simpl. intros [H | [H | [H | [H | [H | H]]]]]; try discriminate H. exact H.
Qed.

(** C6, amended: the hazard type written by an accepted submission is the
    chosen option of the widget, one of the five strings Fire, Chemical Leak,
    Equipment Failure, Structural Risk, Other, exactly as spelled there. *)
Theorem persisted_hazard_type_is_an_option (io : Csv) (now : Z) (f : Form)
  (df : DataFrame) (w : World io) :
  from_widgets f -> submit_button f = true -> fields_missing f = false ->
  hazards_csv (out_world (submit_handler now f df w))
  = Some (to_csv io (out_df (submit_handler now f df w))) /\
  last_field "hazard_type" (out_df (submit_handler now f df w))
  = CStr (hazard_type f) /\
  In (hazard_type f)
    ["Fire"; "Chemical Leak"; "Equipment Failure"; "Structural Risk"; "Other"].
Proof.
  intros [Ht _] Hs Hm.
  destruct (handler_accepts io now f df w Hs Hm) as [_ [Hf [Hp _]]].
  split; [assumption |]. split; [| exact Ht].
  rewrite Hf; simpl; tauto.
Qed.

Lemma persisted_hazard_type_is_an_option_witness :
  from_widgets chemical_leak /\
  submit_button chemical_leak = true /\ fields_missing chemical_leak = false /\
  last_field "hazard_type"
    (out_df (submit_handler 7 chemical_leak empty_table cold_start))
  = CStr "Chemical Leak".
Proof.
  assert (Hw : from_widgets chemical_leak) by (split; simpl; tauto).
  split; [exact Hw |]. split; [reflexivity |]. split; [reflexivity |].
  destruct (persisted_hazard_type_is_an_option plain_csv 7 chemical_leak
              empty_table cold_start Hw eq_refl eq_refl) as [_ [H _]].
  exact H.
Defined.



(** ** Loading *)

(** C8 as stated fails in its second half: on a first run without the file,
    [load_data] puts an error box on the page. *)
Lemma absent_file_shows_an_error :
  hazards_csv cold_start = None /\
  snd (load_data cold_start)
  = [st_error
       "Error: 'hazards.csv' not found. A new one will be created when you add a report."] /\
  snd (load_data cold_start) <> [].
Proof.
  split; [reflexivity |]. split; [reflexivity | discriminate].
Qed.

(** C8, amended: when the file is absent, the body of [load_data] catches
    the exception and returns the empty table with the seven labels lat, lon,
    hazard_type, severity, status, reported_by, timestamp; no exception
    reaches the caller, and the page shows one error box that names the
    missing file.  On a first run (nothing cached) this is the result of
    [load_data], which caches the empty table with its error box and leaves
    the file absent. *)
Theorem absent_file_gives_empty_table (io : Csv) (w : World io) :
  hazards_csv w = None -> cache w = None ->
  load_data_body io (hazards_csv w)
  = (inr (mkDataFrame
            ["lat"; "lon"; "hazard_type"; "severity"; "status"; "reported_by";
             "timestamp"] []),
     [st_error
        "Error: 'hazards.csv' not found. A new one will be created when you add a report."]) /\
  load_data w
  = (inr (mkDataFrame
            ["lat"; "lon"; "hazard_type"; "severity"; "status"; "reported_by";
             "timestamp"] []),
     mkWorld io None
       (Some (mkDataFrame
                ["lat"; "lon"; "hazard_type"; "severity"; "status";
                 "reported_by"; "timestamp"] [],
              [st_error
                 "Error: 'hazards.csv' not found. A new one will be created when you add a report."])),
     [st_error
        "Error: 'hazards.csv' not found. A new one will be created when you add a report."]).
Proof.
  intros Hf Hc. unfold load_data. rewrite Hc, Hf. split; reflexivity.
Qed.

Lemma absent_file_gives_empty_table_witness :
  hazards_csv cold_start = None /\ cache cold_start = None /\
  fst (fst (load_data cold_start)) = inr (DataFrame_columns schema) /\
  len (DataFrame_columns schema) = 0.
Proof.
  split; [reflexivity |]. split; [reflexivity |]. split; [| reflexivity].
  destruct (absent_file_gives_empty_table plain_csv cold_start
              eq_refl eq_refl) as [_ H].
  rewrite H. reflexivity.
Defined.

(** ** The charts *)

Lemma well_formed_getcol (df : DataFrame) (col : string) :
  well_formed df -> In col schema ->
  getcol col df = Some (map (lookup col schema) (rows df)).
Proof.
  intros [Hc _] Hin. unfold getcol. rewrite Hc.
  apply has_column_In in Hin. now rewrite Hin.
Qed.

(** C9 as stated fails: with one Fire/Low report followed by two
    Other/Critical reports, the chart data lists Other before Fire and
    Critical before Low, against the order of either enumeration. *)
Lemma charts_are_not_in_enum_order :
  well_formed three_reports /\
  chart_card "hazard_type" three_reports
  = inr (st_bar_chart [(CStr "Other", 2); (CStr "Fire", 1)]) /\
  in_order [CStr "Other"; CStr "Fire"] hazard_type_options = false /\
  in_order [CStr "Other"; CStr "Fire"] spec_hazard_types = false /\
  chart_card "severity" three_reports
  = inr (st_bar_chart [(CStr "Critical", 2); (CStr "Low", 1)]) /\
  in_order [CStr "Critical"; CStr "Low"] severity_options = false.
Proof.
  split; [| repeat split].
  split; [reflexivity |]. repeat constructor.
Qed.

(** ** Row styling *)

(** Every row of a well-formed table reaches the callback with seven cells
    and one readable severity, the fourth cell. *)
Lemma well_formed_row_severity (df : DataFrame) (row : Series) :
  well_formed df -> In row (iterrows df) ->
  List.length row = 7 /\
  exists sev, getitem row "severity" = Some sev /\ In sev (map snd row).
Proof.
  intros [Hc Hr] Hin. unfold iterrows in Hin. rewrite Hc in Hin.
  apply in_map_iff in Hin. destruct Hin as [r [<- Hr']].
  rewrite Forall_forall in Hr. specialize (Hr r Hr').
  do 8 (destruct r as [| ? r]; try discriminate).
  split; [reflexivity |]. eexists. split; [reflexivity |]. simpl. tauto.
Qed.

(** C10: for a row whose severity field can be read, [style_severity]
    depends on that field alone.  It returns light red for every cell when
    the severity is Critical, light orange when High, light yellow when
    Medium, and the empty style for any other value, Low and unknown strings
    included; in each case the list has exactly one entry per cell. *)
Theorem style_severity_by_severity (row : Series) (sev : cell) :
  getitem row "severity" = Some sev ->
  (sev = CStr "Critical" ->
   style_severity row
   = Some (repeat "background-color: #ffadad" (List.length row))) /\
  (sev = CStr "High" ->
   style_severity row
   = Some (repeat "background-color: #ffd6a5" (List.length row))) /\
  (sev = CStr "Medium" ->
   style_severity row
   = Some (repeat "background-color: #fdffb6" (List.length row))) /\
  (sev <> CStr "Critical" -> sev <> CStr "High" -> sev <> CStr "Medium" ->
   style_severity row = Some (repeat "" (List.length row))) /\
  (exists styles, style_severity row = Some styles /\
                  List.length styles = List.length row) /\
  (forall row', getitem row' "severity" = Some sev ->
     List.length row' = List.length row ->
     style_severity row' = style_severity row).
Proof.
  intro Hg. unfold style_severity. rewrite Hg.
  split; [intros ->; reflexivity |].
  split; [intros ->; reflexivity |].
  split; [intros ->; reflexivity |].
  split; [| split].
  - intros H1 H2 H3.
    destruct (cell_eqb sev (CStr "Critical")) eqn:E1;
      [apply cell_eqb_str in E1; contradiction |].
    destruct (cell_eqb sev (CStr "High")) eqn:E2;
      [apply cell_eqb_str in E2; contradiction |].
    destruct (cell_eqb sev (CStr "Medium")) eqn:E3;
      [apply cell_eqb_str in E3; contradiction |].
    reflexivity.
  - destruct (cell_eqb sev (CStr "Critical"));
      [| destruct (cell_eqb sev (CStr "High"));
         [| destruct (cell_eqb sev (CStr "Medium"))]];
      eexists; (split; [reflexivity | apply repeat_length]).
  - intros row' Hg' Hl. rewrite Hg', Hl. reflexivity.
Qed.

Lemma style_severity_by_severity_witness :
  getitem high_row "severity" = Some (CStr "High") /\
  style_severity high_row
  = Some (repeat "background-color: #ffd6a5" (List.length high_row)).
Proof.
  split; [reflexivity |].
  destruct (style_severity_by_severity high_row (CStr "High") eq_refl)
    as [_ [H _]].
  exact (H eq_refl).
Defined.

(** ** More on loading *)

Lemma assign_lookup_id (c : string) (cols : list string) (r : list cell) :
  assign c cols r (lookup c cols r) = r.
Proof.
  revert r. induction cols as [| c' cols IH]; intros [| x r]; simpl;
    try reflexivity.
  destruct (String.eqb c c'); [reflexivity | now rewrite IH].
Qed.

Lemma lookup_assign_other (c c0 : string) (cols : list string) (r : list cell)
  (v : cell) :
  c <> c0 -> lookup c cols (assign c0 cols r v) = lookup c cols r.
Proof.
  intro Hne. revert r. induction cols as [| c' cols IH]; intros [| x r]; simpl;
    try reflexivity.
  destruct (String.eqb c0 c') eqn:E0; simpl.
  - apply String.eqb_eq in E0. subst c'.
    destruct (String.eqb c c0) eqn:E; [| reflexivity].
    apply String.eqb_eq in E. contradiction.
  - destruct (String.eqb c c'); [reflexivity | apply IH].
Qed.

Lemma lookup_assign_same (c0 : string) (cols : list string) (r : list cell)
  (v : cell) :
  In c0 cols -> List.length r = List.length cols ->
  lookup c0 cols (assign c0 cols r v) = v.
Proof.
  revert r. induction cols as [| c' cols IH]; intros [| x r] Hin Hl;
    simpl in *; try contradiction; try discriminate.
  destruct (String.eqb c0 c') eqn:E0; cbn [lookup]; rewrite ?E0;
    [reflexivity |].
  destruct Hin as [-> | Hin]; [rewrite String.eqb_refl in E0; discriminate |].
  apply IH; [assumption | lia].
Qed.

Lemma length_assign (c0 : string) (cols : list string) (r : list cell)
  (v : cell) :
  List.length (assign c0 cols r v) = List.length r.
Proof.
  revert r. induction cols as [| c' cols IH]; intros [| x r]; simpl;
    try reflexivity.
  destruct (String.eqb c0 c'); simpl; [reflexivity | now rewrite IH].
Qed.

Lemma map_combine_fst {A B C : Type} (g : A -> C) (l : list A) (l' : list B) :
  List.length l' = List.length l ->
  map (fun p => g (fst p)) (combine l l') = map g l.
Proof.
  revert l'. induction l as [| a l IH]; intros [| b l'] H; simpl in *;
    try reflexivity; try discriminate.
  f_equal. apply IH. lia.
Qed.

Lemma map_combine_self {A B C : Type} (g : A -> B -> C) (h : A -> B)
  (l : list A) :
  map (fun p => g (fst p) (snd p)) (combine l (map h l))
  = map (fun a => g a (h a)) l.
Proof.
  induction l as [| a l IH]; simpl; [reflexivity | now rewrite IH].
Qed.

(** Writing a column back over itself changes nothing. *)
Lemma setcol_getcol_id (c : string) (df : DataFrame) (col : list cell) :
  getcol c df = Some col -> setcol c col df = df.
Proof.
  unfold getcol, setcol. destruct (has_column c (columns df)); [| discriminate].
  intro H. injection H as <-. destruct df as [cols rs]. simpl. f_equal.
  rewrite (map_combine_self (fun r v => assign c cols r v) (lookup c cols) rs).
  rewrite <- (map_id rs) at 2. apply map_ext. intro r.
  apply assign_lookup_id.
Qed.

(** When [load_data] lets an exception through, it is never
    FileNotFoundError, the file was there and nothing had been cached; the
    failed call caches nothing, changes nothing and displays nothing, so
    the next run reads the file again. *)
Theorem load_data_failure (io : Csv) (w : World io) (e : exn) :
  fst (fst (load_data w)) = inl e ->
  e <> FileNotFoundError /\
  cache w = None /\
  (exists f, hazards_csv w = Some f) /\
  snd (fst (load_data w)) = w /\
  snd (load_data w) = [].
Proof.
  unfold load_data, load_data_body, load_data_try, pd_read_csv.
  destruct (cache w) as [[df sh] |]; simpl; [discriminate |].
  destruct (hazards_csv w) as [f |]; simpl; [| discriminate].
  intro H. split; [| split; [reflexivity | split; [now exists f |]]].
  - destruct (read_csv io f) as [e' | df]; simpl in H.
    + destruct e'; simpl in H; try discriminate; injection H as <-; discriminate.
    + destruct (getcol "timestamp" df) as [col |]; simpl in H;
        [| injection H as <-; discriminate].
      destruct (to_datetime io col); simpl in H;
        [discriminate | injection H as <-; discriminate].
  - destruct (read_csv io f) as [e' | df]; simpl in *.
    + destruct e'; simpl in *; try discriminate; split; reflexivity.
    + destruct (getcol "timestamp" df) as [col |]; simpl in *;
        [| split; reflexivity].
      destruct (to_datetime io col); simpl in *;
        [discriminate | split; reflexivity].
Qed.

Lemma load_data_failure_witness :
  fst (fst (load_data (stored two_columns))) = inl KeyError /\
  KeyError <> FileNotFoundError /\
  cache (stored two_columns) = None /\
  (exists f, hazards_csv (stored two_columns) = Some f) /\
  snd (fst (load_data (stored two_columns))) = stored two_columns /\
  snd (load_data (stored two_columns)) = [].
Proof.
  split; [reflexivity |].
  exact (load_data_failure plain_csv (stored two_columns) KeyError eq_refl).
Defined.

Lemma map_combine_snd {A B : Type} (l : list A) (l' : list B) :
  List.length l' = List.length l -> map snd (combine l l') = l'.
Proof.
  revert l'. induction l as [| a l IH]; intros [| b l'] H; simpl in *;
    try reflexivity; try discriminate.
  f_equal. apply IH. lia.
Qed.

Lemma getcol_length (c : string) (df : DataFrame) (col : list cell) :
  getcol c df = Some col -> List.length col = len df.
Proof.
  unfold getcol. destruct (has_column c (columns df)); [| discriminate].
  intro H. injection H as <-. apply length_map.
Qed.

(** What assigning a column of the right length does to a table whose cells
    are all in place: that column is replaced, the others and the shape are
    kept. *)
Lemma setcol_spec (c0 : string) (vals : list cell) (df : DataFrame) :
  In c0 (columns df) -> rectangular df -> List.length vals = len df ->
  columns (setcol c0 vals df) = columns df /\
  len (setcol c0 vals df) = len df /\
  rectangular (setcol c0 vals df) /\
  getcol c0 (setcol c0 vals df) = Some vals /\
  (forall c, c <> c0 -> getcol c (setcol c0 vals df) = getcol c df).
Proof.
  intros Hin Hrect Hlen. destruct df as [cols rs].
  unfold rectangular, len in *. simpl in *.
  split; [reflexivity |]. split; [| split; [| split]].
  - unfold len. simpl. rewrite length_map, length_combine. lia.
  - unfold rectangular. simpl. apply Forall_forall. intros r Hr.
    apply in_map_iff in Hr. destruct Hr as [[r0 v] [<- Hp]]. simpl.
    rewrite length_assign. apply in_combine_l in Hp.
    rewrite Forall_forall in Hrect. now apply Hrect.
  - unfold getcol. simpl.
    apply has_column_In in Hin. rewrite Hin. f_equal.
    rewrite map_map. rewrite <- (map_combine_snd rs vals Hlen) at 2.
    apply map_ext_in. intros [r0 v] Hp. simpl.
    apply in_combine_l in Hp. rewrite Forall_forall in Hrect.
    apply lookup_assign_same; [now apply has_column_In | now apply Hrect].
  - intros c Hne. unfold getcol. simpl.
    destruct (has_column c cols); [| reflexivity]. f_equal.
    rewrite map_map.
    rewrite <- (map_combine_fst (lookup c cols) rs vals Hlen).
    apply map_ext. intros [r0 v]. simpl. now apply lookup_assign_other.
Qed.

(** A file that reads as a table with a timestamp column loads as that
    table with the timestamp column parsed and nothing else touched: same
    labels, same number of rows, every other column cell for cell.  The
    result is cached and nothing is displayed. *)
Theorem load_data_parses_timestamp_only (io : Csv) (w : World io)
  (f : File io) (df0 : DataFrame) (col col' : list cell) :
  cache w = None -> hazards_csv w = Some f -> read_csv io f = inr df0 ->
  rectangular df0 ->
  getcol "timestamp" df0 = Some col -> to_datetime io col = Some col' ->
  List.length col' = List.length col ->
  exists df,
    load_data w = (inr df, mkWorld io (Some f) (Some (df, [])), []) /\
    columns df = columns df0 /\ len df = len df0 /\ rectangular df /\
    getcol "timestamp" df = Some col' /\
    (forall c, c <> "timestamp" -> getcol c df = getcol c df0).
Proof.
  intros Hc Hf Hr Hrect Hg Ht Hl.
  exists (setcol "timestamp" col' df0). split.
  - unfold load_data, load_data_body, load_data_try, pd_read_csv.
    rewrite Hc, Hf, Hr, Hg, Ht. reflexivity.
  - assert (Hin : In "timestamp" (columns df0)).
    { apply has_column_In. unfold getcol in Hg.
      destruct (has_column "timestamp" (columns df0)); [reflexivity | discriminate]. }
    apply setcol_spec; try assumption.
    rewrite Hl. now apply getcol_length with (c := "timestamp").
Qed.

Lemma load_data_parses_timestamp_only_witness :
  cache (stored three_reports) = None /\
  hazards_csv (stored three_reports) = Some three_reports /\
  rectangular three_reports /\
  exists df,
    load_data (stored three_reports)
    = (inr df, mkWorld plain_csv (Some three_reports) (Some (df, [])), []) /\
    columns df = columns three_reports /\ len df = len three_reports /\
    rectangular df /\
    getcol "timestamp" df = Some [CTime 1; CTime 2; CTime 3] /\
    (forall c, c <> "timestamp" -> getcol c df = getcol c three_reports).
Proof.
  assert (Hrect : rectangular three_reports) by (repeat constructor).
  split; [reflexivity |]. split; [reflexivity |]. split; [exact Hrect |].
  exact (load_data_parses_timestamp_only plain_csv (stored three_reports)
           three_reports three_reports [CTime 1; CTime 2; CTime 3]
           [CTime 1; CTime 2; CTime 3] eq_refl eq_refl eq_refl Hrect
           eq_refl eq_refl eq_refl).
Defined.

(** ** More on the submit handler *)

Lemma len_concat_record (df : DataFrame) (record : list (string * cell)) :
  len (concat df (DataFrame_record record)) = S (len df).
Proof.
  unfold len, concat, reindex. simpl.
  rewrite length_app, length_map. simpl. lia.
Qed.

(** The handler writes exactly when the button was pressed, the reporter is
    a non-empty string and neither coordinate is zero.  Then the file holds
    the new table, one row longer, and the cache is cleared; in every other
    case the table and the world are left as they were. *)
Theorem handler_writes_iff (io : Csv) (now : Z) (f : Form) (df : DataFrame)
  (w : World io) :
  (out_rerun (submit_handler now f df w) = true <->
   submit_button f = true /\ reported_by f <> "" /\
   ~ (lat f == 0)%Q /\ ~ (lon f == 0)%Q) /\
  (out_rerun (submit_handler now f df w) = true ->
   hazards_csv (out_world (submit_handler now f df w))
   = Some (to_csv io (out_df (submit_handler now f df w))) /\
   cache (out_world (submit_handler now f df w)) = None /\
   len (out_df (submit_handler now f df w)) = S (len df)) /\
  (out_rerun (submit_handler now f df w) = false ->
   out_world (submit_handler now f df w) = w /\
   out_df (submit_handler now f df w) = df).
Proof.
  pose proof (fields_missing_false f) as Hm.
  unfold submit_handler.
  destruct (submit_button f); [destruct (fields_missing f) |]; simpl.
  - split; [split; [discriminate | intros [_ H]; apply Hm in H; discriminate] |].
    split; [discriminate | split; reflexivity].
  - split; [split; [intros _; split; [reflexivity | now apply Hm] | reflexivity] |].
    split; [| discriminate].
    intros _. split; [reflexivity |]. split; [reflexivity |].
    apply len_concat_record.
  - split; [split; [discriminate | intros [H _]; discriminate] |].
    split; [discriminate | split; reflexivity].
Qed.

(** Whatever the form, the handler keeps a well-formed table well formed and
    keeps its rows, in place and in order: the new table is the old one,
    followed by at most one row. *)
Theorem handler_keeps_table (io : Csv) (now : Z) (f : Form) (df : DataFrame)
  (w : World io) :
  well_formed df ->
  well_formed (out_df (submit_handler now f df w)) /\
  exists tail,
    rows (out_df (submit_handler now f df w)) = rows df ++ tail /\
    List.length tail <= 1.
Proof.
  intro Hw.
  destruct (submit_button f) eqn:Hs; [destruct (fields_missing f) eqn:Hm |].
  - destruct (handler_rejects io now f df w Hs Hm) as [-> _].
    split; [assumption |]. exists []. rewrite app_nil_r. split; [reflexivity | simpl; lia].
  - destruct (handler_appends io now f df w Hs Hm Hw) as [Hd [_ Hw']].
    split; [assumption |]. rewrite Hd. simpl.
    eexists. split; [reflexivity | simpl; lia].
  - rewrite (handler_idle io now f df w Hs). simpl.
    split; [assumption |]. exists []. rewrite app_nil_r. split; [reflexivity | simpl; lia].
Qed.

Lemma handler_keeps_table_witness :
  well_formed three_reports /\
  well_formed (out_df (submit_handler 7 mumbai three_reports cold_start)) /\
  exists tail,
    rows (out_df (submit_handler 7 mumbai three_reports cold_start))
    = rows three_reports ++ tail /\
    List.length tail <= 1.
Proof.
  assert (Hw : well_formed three_reports)
    by (split; [reflexivity | repeat constructor]).
  split; [exact Hw |].
  exact (handler_keeps_table plain_csv 7 mumbai three_reports cold_start Hw).
Defined.

(** ** The overview card *)

Lemma length_select_rows (mask : list bool) (rs : list (list cell)) :
  List.length (select_rows mask rs) <= List.length rs.
Proof.
  revert rs. induction mask as [| b mask IH]; intros [| r rs]; simpl;
    try lia.
  specialize (IH rs). destruct b; simpl; lia.
Qed.

Lemma select_rows_app (m1 m2 : list bool) (rs1 rs2 : list (list cell)) :
  List.length m1 = List.length rs1 ->
  select_rows (m1 ++ m2) (rs1 ++ rs2)
  = select_rows m1 rs1 ++ select_rows m2 rs2.
Proof.
  revert rs1. induction m1 as [| b m1 IH]; intros [| r rs1] H; simpl in *;
    try discriminate; [reflexivity |].
  rewrite IH by lia. now destruct b.
Qed.

Lemma masked_count_bounded (c : string) (mk : list cell -> list bool)
  (df : DataFrame) :
  (forall e,
     match getcol c df with
     | None => inl KeyError
     | Some col => inr (len (getrows (mk col) df))
     end = inl e -> e = KeyError /\ ~ In c (columns df)) /\
  (forall n,
     match getcol c df with
     | None => inl KeyError
     | Some col => inr (len (getrows (mk col) df))
     end = @inr exn nat n -> In c (columns df) /\ n <= len df).
Proof.
  unfold getcol. pose proof (has_column_In c (columns df)) as Hc.
  destruct (has_column c (columns df)); split.
  - discriminate.
  - intros n H. injection H as <-. split; [now apply Hc |].
    unfold len, getrows. simpl. apply length_select_rows.
  - intros e H. injection H as <-. split; [reflexivity |].
    intro Hin. apply Hc in Hin. discriminate.
  - discriminate.
Qed.

(** The figures of the overview: a lookup raises only KeyError and only when
    the table lacks the column; a figure that is produced never exceeds the
    number of reports. *)
Theorem overview_counts_bounded (df : DataFrame) :
  (forall e, active_incidents df = inl e ->
     e = KeyError /\ ~ In "status" (columns df)) /\
  (forall n, active_incidents df = inr n ->
     In "status" (columns df) /\ n <= total_reports df) /\
  (forall e, high_severity df = inl e ->
     e = KeyError /\ ~ In "severity" (columns df)) /\
  (forall n, high_severity df = inr n ->
     In "severity" (columns df) /\ n <= total_reports df).
Proof.
  destruct (masked_count_bounded "status" (fun col => eq_mask col "Active") df)
    as [H1 H2].
  destruct (masked_count_bounded "severity"
              (fun col => isin col ["High"; "Critical"]) df) as [H3 H4].
  split; [exact H1 |]. split; [exact H2 |]. split; [exact H3 | exact H4].
Qed.

Lemma getcol_snoc (c : string) (rs : list (list cell)) (r : list cell) :
  In c schema ->
  getcol c (mkDataFrame schema (rs ++ [r]))
  = Some (map (lookup c schema) rs ++ [lookup c schema r]).
Proof.
  intro Hin. unfold getcol. cbn [columns rows].
  apply has_column_In in Hin. rewrite Hin. now rewrite map_app.
Qed.

(** An accepted report on a well-formed table raises the total by one and the
    active incidents by one, and the high/critical figure by one exactly
    when its severity is High or Critical. *)
Theorem overview_after_submit (io : Csv) (now : Z) (f : Form) (df : DataFrame)
  (w : World io) :
  well_formed df -> submit_button f = true -> fields_missing f = false ->
  exists a h,
    active_incidents df = inr a /\ high_severity df = inr h /\
    total_reports (out_df (submit_handler now f df w))
    = S (total_reports df) /\
    active_incidents (out_df (submit_handler now f df w)) = inr (S a) /\
    high_severity (out_df (submit_handler now f df w))
    = inr (if String.eqb (severity f) "High"
              || String.eqb (severity f) "Critical"
           then S h else h).
Proof.
  intros Hw Hs Hm.
  destruct (handler_appends io now f df w Hs Hm Hw) as [Hd [Hl _]].
  unfold active_incidents, high_severity, total_reports.
  rewrite (well_formed_getcol df "status" Hw) by (simpl; tauto).
  rewrite (well_formed_getcol df "severity" Hw) by (simpl; tauto).
  do 2 eexists. split; [reflexivity |]. split; [reflexivity |].
  split; [exact Hl |]. rewrite Hd.
  rewrite !getcol_snoc by (simpl; tauto).
  unfold getrows, len, eq_mask, isin. cbn [rows columns].
  rewrite !map_app, !select_rows_app by now rewrite !length_map.
  rewrite !length_app. split.
  - f_equal. simpl. lia.
  - f_equal.
    assert (Hsev : lookup "severity" schema (map snd (new_record now f))
                   = CStr (severity f)) by reflexivity.
    cbn [map existsb]. rewrite Hsev. cbn [cell_eqb]. rewrite orb_false_r.
    destruct (String.eqb (severity f) "High" || String.eqb (severity f) "Critical");
      simpl; lia.
Qed.

Lemma overview_after_submit_witness :
  well_formed three_reports /\ submit_button mumbai = true /\
  fields_missing mumbai = false /\
  exists a h,
    active_incidents three_reports = inr a /\
    high_severity three_reports = inr h /\
    total_reports (out_df (submit_handler 7 mumbai three_reports cold_start))
    = S (total_reports three_reports) /\
    active_incidents (out_df (submit_handler 7 mumbai three_reports cold_start))
    = inr (S a) /\
    high_severity (out_df (submit_handler 7 mumbai three_reports cold_start))
    = inr (if String.eqb (severity mumbai) "High"
              || String.eqb (severity mumbai) "Critical"
           then S h else h).
Proof.
  assert (Hw : well_formed three_reports)
    by (split; [reflexivity | repeat constructor]).
  split; [exact Hw |]. split; [reflexivity |]. split; [reflexivity |].
  exact (overview_after_submit plain_csv 7 mumbai three_reports cold_start
           Hw eq_refl eq_refl).
Defined.

(** ** More on the charts *)

Lemma cell_eqb_sym (a b : cell) : cell_eqb a b = cell_eqb b a.
Proof.
  destruct a as [x | x | x | ], b as [y | y | y | ]; simpl; try reflexivity.
  - destruct (Qeq_bool x y) eqn:E1, (Qeq_bool y x) eqn:E2; try reflexivity.
    + apply Qeq_bool_iff in E1. symmetry in E1. apply Qeq_bool_iff in E1.
      congruence.
    + apply Qeq_bool_iff in E2. symmetry in E2. apply Qeq_bool_iff in E2.
      congruence.
  - apply String.eqb_sym.
  - apply Z.eqb_sym.
Qed.

Lemma cell_eqb_trans (a b c : cell) :
  cell_eqb a b = true -> cell_eqb b c = true -> cell_eqb a c = true.
Proof.
  destruct a as [x | x | x | ], b as [y | y | y | ], c as [z | z | z | ];
    simpl; try discriminate; intros H1 H2.
  - apply Qeq_bool_iff in H1, H2. apply Qeq_bool_iff. now rewrite H1.
  - apply String.eqb_eq in H1, H2. subst. apply String.eqb_refl.
  - apply Z.eqb_eq in H1, H2. subst. apply Z.eqb_refl.
Qed.

Lemma cell_eqb_congr (x u y : cell) :
  cell_eqb u y = true -> cell_eqb x u = cell_eqb x y.
Proof.
  intro H. destruct (cell_eqb x u) eqn:E1, (cell_eqb x y) eqn:E2;
    try reflexivity.
  - rewrite (cell_eqb_trans x u y E1 H) in E2. discriminate.
  - rewrite cell_eqb_sym in H.
    rewrite (cell_eqb_trans x y u E2 H) in E1. discriminate.
Qed.

Lemma filter_filter_andb {A : Type} (p q : A -> bool) (l : list A) :
  filter p (filter q l) = filter (fun u => q u && p u) l.
Proof.
  induction l as [| a l IH]; simpl; [reflexivity |].
  destruct (q a); simpl; [destruct (p a); now rewrite IH | assumption].
Qed.

Lemma filter_length_split {A : Type} (a b c : A -> bool) (m : list A) :
  (forall y, c y = a y || b y) -> (forall y, a y && b y = false) ->
  List.length (filter a m) + List.length (filter b m)
  = List.length (filter c m).
Proof.
  intros Hc Hd. induction m as [| y m IH]; simpl; [reflexivity |].
  rewrite Hc. specialize (Hd y).
  destruct (a y), (b y); simpl in *; try discriminate; lia.
Qed.

Lemma filter_all {A : Type} (q : A -> bool) (m : list A) :
  (forall y, In y m -> q y = true) -> filter q m = m.
Proof.
  induction m as [| y m IH]; simpl; intro H; [reflexivity |].
  rewrite (H y) by now left. f_equal. apply IH. intros z Hz. apply H. now right.
Qed.

(** Counting the occurrences in [m] of each distinct value of [l] accepted
    by a test that does not tell equal cells apart counts the cells of [m]
    that equal some value of [l] and pass the test. *)
Lemma unique_counts (l : list cell) :
  forall (p : cell -> bool) (m : list cell),
    (forall u y, cell_eqb u y = true -> p u = p y) ->
    list_sum (map (fun u => count_cell u m) (filter p (unique l)))
    = List.length
        (filter (fun y => existsb (fun x => cell_eqb x y) l && p y) m).
Proof.
  induction l as [| x t IH]; intros p m Hp.
  - simpl. induction m as [| y m IHm]; simpl; [reflexivity | assumption].
  - cbn [unique filter].
    assert (Hrest :
      list_sum (map (fun u => count_cell u m)
                  (filter p (filter (fun y => negb (cell_eqb x y)) (unique t))))
      = List.length
          (filter (fun y => existsb (fun x0 => cell_eqb x0 y) t
                            && (negb (cell_eqb x y) && p y)) m)).
    { rewrite filter_filter_andb. apply IH.
      intros u y Huy. rewrite (Hp u y Huy).
      now rewrite (cell_eqb_congr x u y Huy). }
    assert (Hfirst :
      (if p x then count_cell x m else 0)
      = List.length (filter (fun y => cell_eqb x y && p y) m)).
    { destruct (p x) eqn:Epx.
      - unfold count_cell. f_equal. apply filter_ext. intro y.
        destruct (cell_eqb x y) eqn:E; [| reflexivity].
        simpl. rewrite <- (Hp x y E). now rewrite Epx.
      - symmetry. apply length_zero_iff_nil. clear Hrest.
        induction m as [| y m IHm]; simpl; [reflexivity |].
        destruct (cell_eqb x y) eqn:E; simpl; [| assumption].
        rewrite <- (Hp x y E), Epx. assumption. }
    rewrite <- (filter_length_split
                  (fun y => cell_eqb x y && p y)
                  (fun y => existsb (fun x0 => cell_eqb x0 y) t
                            && (negb (cell_eqb x y) && p y))).
    + rewrite <- Hfirst, <- Hrest. destruct (p x); reflexivity.
    + intro y. simpl.
      destruct (cell_eqb x y), (existsb (fun x0 => cell_eqb x0 y) t), (p y);
        reflexivity.
    + intro y.
      destruct (cell_eqb x y), (existsb (fun x0 => cell_eqb x0 y) t), (p y);
        reflexivity.
Qed.

Lemma bars_total_insert (e : cell * nat) (l : list (cell * nat)) :
  bars_total (insert_desc e l) = snd e + bars_total l.
Proof.
  unfold bars_total. induction l as [| h t IH]; simpl; [reflexivity |].
  destruct (Nat.leb (snd h) (snd e)); simpl; [reflexivity |].
  rewrite IH. lia.
Qed.

Lemma bars_total_sort (l : list (cell * nat)) :
  bars_total (sort_desc l) = bars_total l.
Proof.
  induction l as [| e l IH]; simpl; [reflexivity |].
  rewrite bars_total_insert, IH. reflexivity.
Qed.

(** The bars of a chart add up to the number of cells of the column that
    are not missing: every report with a value is counted once. *)
Theorem value_counts_total (col : list cell) :
  bars_total (value_counts col) = List.length (filter notna col).
Proof.
  unfold value_counts. rewrite bars_total_sort. unfold bars_total.
  rewrite map_map. simpl.
  pose proof (unique_counts (filter notna col) (fun _ => true)
                (filter notna col) (fun _ _ _ => eq_refl)) as H.
  rewrite (filter_all (fun _ : cell => true)) in H by reflexivity.
  rewrite H. f_equal. apply filter_all.
  intros y Hy. rewrite andb_true_r. apply existsb_exists.
  exists y. split; [assumption |].
  apply cell_eqb_refl. apply filter_In in Hy. tauto.
Qed.

Lemma filter_insert_desc (q : cell * nat -> bool) (e : cell * nat)
  (l : list (cell * nat)) :
  List.length (filter q (insert_desc e l)) = List.length (filter q (e :: l)).
Proof.
  induction l as [| h t IH]; [reflexivity |].
  cbn [insert_desc]. destruct (Nat.leb (snd h) (snd e)); [reflexivity |].
  cbn [filter] in *. destruct (q h), (q e); cbn [List.length] in *; lia.
Qed.

Lemma filter_sort_desc (q : cell * nat -> bool) (l : list (cell * nat)) :
  List.length (filter q (sort_desc l)) = List.length (filter q l).
Proof.
  induction l as [| e l IH]; [reflexivity |].
  cbn [sort_desc fold_right]. rewrite filter_insert_desc.
  cbn [filter]. fold (sort_desc l). destruct (q e); cbn [List.length]; lia.
Qed.

Lemma filter_twice_length {A : Type} (p q : A -> bool) (l : list A) :
  List.length (filter p (filter q l)) <= List.length (filter p l).
Proof.
  induction l as [| a l IH]; simpl; [lia |].
  destruct (q a), (p a) eqn:E; simpl; rewrite ?E; simpl; lia.
Qed.

(** No two of the distinct values are equal. *)
Lemma unique_at_most_one (v : cell) (l : list cell) :
  List.length (filter (fun u => cell_eqb u v) (unique l)) <= 1.
Proof.
  induction l as [| x t IH]; simpl; [lia |].
  destruct (cell_eqb x v) eqn:E; simpl.
  - rewrite filter_filter_andb.
    rewrite (proj2 (length_zero_iff_nil _)); [lia |]. clear IH.
    induction (unique t) as [| u us IHu]; simpl; [reflexivity |].
    destruct (cell_eqb x u) eqn:Exu; simpl; [assumption |].
    destruct (cell_eqb u v) eqn:Euv; simpl; [| assumption].
    rewrite cell_eqb_sym in Euv.
    rewrite (cell_eqb_trans x v u E Euv) in Exu. discriminate.
  - pose proof (filter_twice_length (fun u => cell_eqb u v)
                  (fun y => negb (cell_eqb x y)) (unique t)). lia.
Qed.

Lemma value_counts_keys (v : cell) (col : list cell) :
  List.length (filter (fun e => cell_eqb (fst e) v) (value_counts col)) <= 1.
Proof.
  unfold value_counts. rewrite filter_sort_desc.
  set (vals := filter notna col).
  assert (H : forall l : list cell,
    List.length
      (filter (fun e : cell * nat => cell_eqb (fst e) v)
         (map (fun u => (u, count_cell u vals)) l))
    = List.length (filter (fun u => cell_eqb u v) l)).
  { induction l as [| u l IH]; simpl; [reflexivity |].
    destruct (cell_eqb u v); simpl; now rewrite IH. }
  rewrite H. apply unique_at_most_one.
Qed.

Lemma chart_card_inv (col : string) (df : DataFrame) (vc : list (cell * nat)) :
  chart_card col df = inr (st_bar_chart vc) ->
  empty df = false /\
  exists cells, getcol col df = Some cells /\ vc = value_counts cells.
Proof.
  unfold chart_card. destruct (empty df); simpl; [discriminate |].
  destruct (getcol col df) as [cells |]; [| discriminate].
  intro H. injection H as <-. split; [reflexivity |]. now exists cells.
Qed.

Lemma value_counts_one_entry (v : cell) (cells : list cell) :
  In v cells -> notna v = true ->
  List.length (filter (fun e => cell_eqb (fst e) v) (value_counts cells)) = 1.
Proof.
  intros Hin Hna. pose proof (value_counts_keys v cells) as Hle.
  destruct (value_counts_spec cells) as [_ [_ Hc]].
  destruct (Hc v Hin Hna) as [u [n [Hu Huv]]].
  assert (Hm : In (u, n)
                 (filter (fun e => cell_eqb (fst e) v) (value_counts cells)))
    by (apply filter_In; split; assumption).
  destruct (filter (fun e => cell_eqb (fst e) v) (value_counts cells));
    [contradiction | simpl in *; lia].
Qed.

(** C9, amended: for every well-formed table with at least one row, the
    per-type and the per-severity mapping handed to the chart are the
    [value_counts] of the column: one entry, and only one, for each distinct
    value present, with its number of occurrences, ordered by count, largest
    first, not by the order of the enumeration. *)
Theorem charts_are_ordered_by_count (df : DataFrame) (col : string) :
  well_formed df -> empty df = false ->
  col = "hazard_type" \/ col = "severity" ->
  exists cells,
    getcol col df = Some cells /\
    chart_card col df = inr (st_bar_chart (value_counts cells)) /\
    descending (value_counts cells) /\
    (forall v n, In (v, n) (value_counts cells) ->
       In v cells /\ n = count_cell v (filter notna cells) /\ 1 <= n) /\
    (forall v, In v cells -> notna v = true ->
       exists u n, In (u, n) (value_counts cells) /\ cell_eqb u v = true) /\
    (forall v,
       List.length
         (filter (fun e => cell_eqb (fst e) v) (value_counts cells)) <= 1) /\
    (forall v, In v cells -> notna v = true ->
       List.length
         (filter (fun e => cell_eqb (fst e) v) (value_counts cells)) = 1).
Proof.
  intros Hw He Hcol.
  assert (Hin : In col schema) by (destruct Hcol as [-> | ->]; simpl; tauto).
  exists (map (lookup col schema) (rows df)).
  pose proof (well_formed_getcol df col Hw Hin) as Hg.
  split; [assumption |]. split.
  - unfold chart_card. now rewrite He, Hg.
  - destruct (value_counts_spec (map (lookup col schema) (rows df)))
      as [Hd [Hs Hc]].
    split; [assumption |]. split; [| split; [assumption | split]].
    + intros v n Hvn. destruct (Hs v n Hvn) as [H1 [_ [H2 H3]]]. tauto.
    + intro v. apply value_counts_keys.
    + intros v Hv Hna. now apply value_counts_one_entry.
Qed.

Lemma charts_are_ordered_by_count_witness :
  well_formed three_reports /\ empty three_reports = false /\
  exists cells,
    getcol "hazard_type" three_reports = Some cells /\
    chart_card "hazard_type" three_reports
    = inr (st_bar_chart (value_counts cells)) /\
    descending (value_counts cells) /\
    (forall v,
       List.length
         (filter (fun e => cell_eqb (fst e) v) (value_counts cells)) <= 1).
Proof.
  assert (Hw : well_formed three_reports)
    by (split; [reflexivity | repeat constructor]).
  split; [exact Hw |]. split; [reflexivity |].
  destruct (charts_are_ordered_by_count three_reports "hazard_type" Hw
              eq_refl (or_introl eq_refl))
    as [cells [H1 [H2 [H3 [_ [_ [H4 _]]]]]]].
  exists cells. repeat split; assumption.
Defined.

(** When a chart is drawn, its bars add up to the number of reports whose
    value in the column is not missing, so to no more than the total of the
    overview. *)
Theorem chart_bars_add_up (col : string) (df : DataFrame)
  (vc : list (cell * nat)) :
  chart_card col df = inr (st_bar_chart vc) ->
  exists cells,
    getcol col df = Some cells /\
    bars_total vc = List.length (filter notna cells) /\
    bars_total vc <= total_reports df /\
    (forallb notna cells = true -> bars_total vc = total_reports df).
Proof.
  intro H. destruct (chart_card_inv col df vc H) as [_ [cells [Hg ->]]].
  exists cells. split; [assumption |].
  pose proof (getcol_length col df cells Hg) as Hl.
  rewrite value_counts_total. unfold total_reports. rewrite <- Hl.
  split; [reflexivity |]. split; [apply List.filter_length_le |].
  intro Hall. f_equal. apply filter_all.
  intros y Hy. rewrite forallb_forall in Hall. now apply Hall.
Qed.

Lemma chart_bars_add_up_witness :
  chart_card "hazard_type" three_reports
  = inr (st_bar_chart [(CStr "Other", 2); (CStr "Fire", 1)]) /\
  exists cells,
    getcol "hazard_type" three_reports = Some cells /\
    bars_total [(CStr "Other", 2); (CStr "Fire", 1)]
    = List.length (filter notna cells) /\
    bars_total [(CStr "Other", 2); (CStr "Fire", 1)]
    <= total_reports three_reports /\
    (forallb notna cells = true ->
     bars_total [(CStr "Other", 2); (CStr "Fire", 1)]
     = total_reports three_reports).
Proof.
  split; [reflexivity |].
  exact (chart_bars_add_up "hazard_type" three_reports
           [(CStr "Other", 2); (CStr "Fire", 1)] eq_refl).
Defined.

(** When a chart is drawn, no value has two bars, and every value present in
    the column has its bar. *)
Theorem chart_one_bar_per_value (col : string) (df : DataFrame)
  (vc : list (cell * nat)) :
  chart_card col df = inr (st_bar_chart vc) ->
  exists cells,
    getcol col df = Some cells /\
    (forall v, List.length (filter (fun e => cell_eqb (fst e) v) vc) <= 1) /\
    (forall v, In v cells -> notna v = true ->
       List.length (filter (fun e => cell_eqb (fst e) v) vc) = 1).
Proof.
  intro H. destruct (chart_card_inv col df vc H) as [_ [cells [Hg ->]]].
  exists cells. split; [assumption |].
  split; [intro v; apply value_counts_keys |].
  intros v Hin Hna. now apply value_counts_one_entry.
Qed.

Lemma chart_one_bar_per_value_witness :
  chart_card "severity" three_reports
  = inr (st_bar_chart [(CStr "Critical", 2); (CStr "Low", 1)]) /\
  exists cells,
    getcol "severity" three_reports = Some cells /\
    (forall v,
       List.length
         (filter (fun e => cell_eqb (fst e) v)
            [(CStr "Critical", 2); (CStr "Low", 1)]) <= 1) /\
    (forall v, In v cells -> notna v = true ->
       List.length
         (filter (fun e => cell_eqb (fst e) v)
            [(CStr "Critical", 2); (CStr "Low", 1)]) = 1).
Proof.
  split; [reflexivity |].
  exact (chart_one_bar_per_value "severity" three_reports
           [(CStr "Critical", 2); (CStr "Low", 1)] eq_refl).
Defined.

(** ** The styled table and the map *)

Lemma style_severity_total (row : Series) (sev : cell) :
  getitem row "severity" = Some sev ->
  exists c, style_severity row = Some (repeat c (List.length row)).
Proof.
  intro Hg. unfold style_severity. rewrite Hg.
  destruct (cell_eqb sev (CStr "Critical"));
    [| destruct (cell_eqb sev (CStr "High"));
       [| destruct (cell_eqb sev (CStr "Medium"))]];
    eexists; reflexivity.
Qed.

Lemma collect_all {A B : Type} (func : A -> option B) (l : list A) :
  (forall x, In x l -> exists y, func x = Some y) ->
  exists ys, collect (map func l) = Some ys /\
             Forall2 (fun x y => func x = Some y) l ys.
Proof.
  induction l as [| x l IH]; intro H; simpl.
  - exists []. split; [reflexivity | constructor].
  - destruct (H x (or_introl eq_refl)) as [y Hy].
    destruct IH as [ys [Hc Hf]]; [intros z Hz; apply H; now right |].
    rewrite Hy, Hc. exists (y :: ys). split; [reflexivity | now constructor].
Qed.

Lemma Forall2_refine {A B : Type} (Q : A -> Prop) (R S : A -> B -> Prop)
  (l : list A) (ys : list B) :
  (forall x y, Q x -> R x y -> S x y) ->
  Forall Q l -> Forall2 R l ys -> Forall2 S l ys.
Proof.
  intros HS HQ HR. induction HR as [| x y l ys Hxy HR IH]; constructor.
  - apply HS; [now inversion HQ | assumption].
  - apply IH. now inversion HQ.
Qed.

(** The table card on a well-formed table, whatever the order the sort puts
    the rows in: the styling raises on no row and yields, for each row in
    turn, the seven styles [style_severity] gives it. *)
Theorem table_styles_every_cell (df sorted_df : DataFrame) :
  well_formed df ->
  columns sorted_df = columns df ->
  Permutation (rows df) (rows sorted_df) ->
  exists styles,
    style_apply style_severity sorted_df = Some styles /\
    List.length styles = len df /\
    Forall2 (fun row s => style_severity row = Some s /\ List.length s = 7)
      (iterrows sorted_df) styles.
Proof.
  intros [Hc Hr] Hcols Hperm.
  assert (Hw : well_formed sorted_df).
  { split; [congruence |]. now apply (Permutation_Forall Hperm). }
  assert (Hrow : Forall (fun row => List.length row = 7 /\
                           exists sev, getitem row "severity" = Some sev)
                   (iterrows sorted_df)).
  { apply Forall_forall. intros row Hin.
    destruct (well_formed_row_severity sorted_df row Hw Hin)
      as [H7 [sev [Hg _]]].
    split; [assumption | now exists sev]. }
  destruct (collect_all style_severity (iterrows sorted_df)) as [ys [Hy Hf]].
  { intros row Hin. rewrite Forall_forall in Hrow.
    destruct (Hrow row Hin) as [_ [sev Hg]].
    destruct (style_severity_total row sev Hg) as [c Hs]. eauto. }
  exists ys. split; [exact Hy |]. split.
  - rewrite <- (Forall2_length Hf). unfold iterrows, len.
    rewrite length_map. symmetry. now apply Permutation_length.
  - refine (Forall2_refine _ _ _ _ _ _ Hrow Hf).
    intros row s Hq Hs. simpl in *. split; [exact Hs |].
    destruct Hq as [H7 [sev Hg]].
    destruct (style_severity_total row sev Hg) as [c Hc'].
    rewrite Hc' in Hs. injection Hs as <-. now rewrite repeat_length.
Qed.

Lemma table_styles_every_cell_witness :
  well_formed three_reports /\
  exists styles,
    style_apply style_severity
      (mkDataFrame schema (rev (rows three_reports))) = Some styles /\
    List.length styles = len three_reports /\
    Forall2 (fun row s => style_severity row = Some s /\ List.length s = 7)
      (iterrows (mkDataFrame schema (rev (rows three_reports)))) styles.
Proof.
  assert (Hw : well_formed three_reports)
    by (split; [reflexivity | repeat constructor]).
  split; [exact Hw |].
  exact (table_styles_every_cell three_reports
           (mkDataFrame schema (rev (rows three_reports))) Hw eq_refl
           (Permutation_rev (rows three_reports))).
Defined.

Lemma filter_label_nil (label : string) (row : Series) :
  filter (fun kv : string * cell => String.eqb (fst kv) label) row = [] <->
  ~ In label (map fst row).
Proof.
  induction row as [| [k v] row IH]; simpl.
  - split; [intros _ H; exact H | reflexivity].
  - destruct (String.eqb k label) eqn:E.
    + apply String.eqb_eq in E. subst k. split; [discriminate |].
      intro H. exfalso. apply H. now left.
    + rewrite IH. split.
      * intros H [Hk | Hin]; [| now apply H].
        subst k. rewrite String.eqb_refl in E. discriminate.
      * intros H Hin. apply H. now right.
Qed.

Lemma filter_label_single (label : string) (row : Series) :
  NoDup (map fst row) -> In label (map fst row) ->
  exists v,
    filter (fun kv : string * cell => String.eqb (fst kv) label) row
    = [(label, v)].
Proof.
  induction row as [| [k v] row IH]; simpl; intros Hnd Hin; [contradiction |].
  inversion Hnd as [| ? ? Hk Hnd']; subst.
  destruct (String.eqb k label) eqn:E.
  - apply String.eqb_eq in E. subst k. exists v. f_equal.
    now apply filter_label_nil.
  - destruct Hin as [-> | Hin];
      [rewrite String.eqb_refl in E; discriminate | now apply IH].
Qed.

(** When no label is repeated, [style_severity] raises exactly on the rows
    that have no severity label; on every other row it returns one style per
    cell. *)
Theorem style_severity_raises_iff (row : Series) :
  NoDup (map fst row) ->
  (style_severity row = None <-> ~ In "severity" (map fst row)) /\
  (In "severity" (map fst row) ->
   exists c, style_severity row = Some (repeat c (List.length row))).
Proof.
  intro Hnd.
  assert (Hone : In "severity" (map fst row) ->
                 exists sev, getitem row "severity" = Some sev).
  { intro Hin. unfold getitem.
    destruct (filter_label_single "severity" row Hnd Hin) as [v Hv].
    rewrite Hv. now exists v. }
  split; [split |].
  - intros Hs Hin. destruct (Hone Hin) as [sev Hg].
    destruct (style_severity_total row sev Hg) as [c Hc]. congruence.
  - intro Hn. apply filter_label_nil in Hn.
    unfold style_severity, getitem. now rewrite Hn.
  - intro Hin. destruct (Hone Hin) as [sev Hg].
    now apply style_severity_total with (sev := sev).
Qed.

Lemma style_severity_raises_iff_witness :
  NoDup (map fst high_row) /\
  (style_severity high_row = None <-> ~ In "severity" (map fst high_row)) /\
  (In "severity" (map fst high_row) ->
   exists c, style_severity high_row = Some (repeat c (List.length high_row))).
Proof.
  assert (Hnd : NoDup (map fst high_row)).
  { simpl. repeat constructor; simpl; intuition discriminate. }
  split; [exact Hnd |].
  exact (style_severity_raises_iff high_row Hnd).
Defined.

(** The dot on the map and the row of the table sort a report into the same
    class by its severity: Critical is red on the map and light red in the
    table, High is orange and light orange, Medium is yellow and light
    yellow, and every other value is green with no highlight. *)
Theorem map_colour_matches_row_style (row : Series) (sev : cell) :
  getitem row "severity" = Some sev ->
  (sev = CStr "Critical" ->
   get_fill_color sev = [255; 0; 0]%Z /\
   style_severity row
   = Some (repeat "background-color: #ffadad" (List.length row))) /\
  (sev = CStr "High" ->
   get_fill_color sev = [255; 140; 0]%Z /\
   style_severity row
   = Some (repeat "background-color: #ffd6a5" (List.length row))) /\
  (sev = CStr "Medium" ->
   get_fill_color sev = [255; 255; 0]%Z /\
   style_severity row
   = Some (repeat "background-color: #fdffb6" (List.length row))) /\
  (sev <> CStr "Critical" -> sev <> CStr "High" -> sev <> CStr "Medium" ->
   get_fill_color sev = [0; 128; 0]%Z /\
   style_severity row = Some (repeat "" (List.length row))).
Proof.
  intro Hg. unfold style_severity, get_fill_color. rewrite Hg.
  split; [intros ->; split; reflexivity |].
  split; [intros ->; split; reflexivity |].
  split; [intros ->; split; reflexivity |].
  intros H1 H2 H3.
  destruct (cell_eqb sev (CStr "Critical")) eqn:E1;
    [apply cell_eqb_str in E1; contradiction |].
  destruct (cell_eqb sev (CStr "High")) eqn:E2;
    [apply cell_eqb_str in E2; contradiction |].
  destruct (cell_eqb sev (CStr "Medium")) eqn:E3;
    [apply cell_eqb_str in E3; contradiction |].
  split; reflexivity.
Qed.

Lemma map_colour_matches_row_style_witness :
  getitem high_row "severity" = Some (CStr "High") /\
  get_fill_color (CStr "High") = [255; 140; 0]%Z /\
  style_severity high_row
  = Some (repeat "background-color: #ffd6a5" (List.length high_row)).
Proof.
  split; [reflexivity |].
  destruct (map_colour_matches_row_style high_row (CStr "High") eq_refl)
    as [_ [H _]].
  exact (H eq_refl).
Defined.

(** ** Runs of the script *)

(** A successful [load_data] leaves its result, with what it displayed, in
    the cache and the file as it was. *)
Lemma load_data_caches (io : Csv) (w w1 : World io) (df : DataFrame)
  (shown : list Element) :
  load_data w = (inr df, w1, shown) ->
  cache w1 = Some (df, shown) /\ hazards_csv w1 = hazards_csv w.
Proof.
  unfold load_data. destruct (cache w) as [[d sh] |] eqn:Hc.
  - intro H. injection H as <- <- <-. now split.
  - destruct (load_data_body io (hazards_csv w)) as [[e | d] s];
      intro H; [discriminate |].
    injection H as <- <- <-. now split.
Qed.

(** Runs in which the button is not pressed only read: the first leaves the
    file as it was and the table, with what the load displayed, in the
    cache; every later one shows that same table and those same elements
    and changes nothing. *)
Theorem idle_runs_repeat (io : Csv) (now : Z) (f : Form) (w : World io)
  (o : Outcome io) :
  script_run now f w = inr o -> submit_button f = false ->
  hazards_csv (out_world o) = hazards_csv w /\
  cache (out_world o) = Some (out_df o, out_shown o) /\
  out_rerun o = false /\
  forall now' f', submit_button f' = false ->
    exists o', script_run now' f' (out_world o) = inr o' /\
               out_df o' = out_df o /\ out_world o' = out_world o /\
               out_shown o' = out_shown o /\
               out_rerun o' = false.
Proof.
  unfold script_run. intros H Hs.
  destruct (load_data w) as [[[e | df] w1] shown] eqn:Hl; [discriminate |].
  rewrite (handler_idle io now f df w1 Hs) in H. simpl in H.
  injection H as <-. simpl. rewrite app_nil_r.
  destruct (load_data_caches io w w1 df shown Hl) as [Hc Hf].
  split; [assumption |]. split; [assumption |]. split; [reflexivity |].
  intros now' f' Hs'. unfold load_data. rewrite Hc.
  rewrite (handler_idle io now' f' df w1 Hs'). simpl. rewrite app_nil_r.
  eexists. split; [reflexivity |]. repeat split.
Qed.

Lemma idle_runs_repeat_witness :
  script_run 7 default_form (stored three_reports)
  = inr (mkOutcome three_reports
           (mkWorld plain_csv (Some three_reports) (Some (three_reports, [])))
           [] false) /\
  submit_button default_form = false /\
  forall now' f', submit_button f' = false ->
    exists o',
      script_run now' f'
        (mkWorld plain_csv (Some three_reports) (Some (three_reports, [])))
      = inr o' /\
      out_df o' = three_reports /\
      out_world o'
      = mkWorld plain_csv (Some three_reports) (Some (three_reports, [])) /\
      out_shown o' = [] /\
      out_rerun o' = false.
Proof.
  assert (H : script_run 7 default_form (stored three_reports)
              = inr (mkOutcome three_reports
                       (mkWorld plain_csv (Some three_reports)
                          (Some (three_reports, []))) [] false))
    by reflexivity.
  split; [exact H |]. split; [reflexivity |].
  destruct (idle_runs_repeat plain_csv 7 default_form (stored three_reports)
              _ H eq_refl) as [_ [_ [_ Hrep]]].
  exact Hrep.
Defined.

Lemma well_formed_eta (df : DataFrame) :
  well_formed df -> df = mkDataFrame schema (rows df).
Proof.
  intros [Hc _]. destruct df as [cols rs]. simpl in *. now subst.
Qed.

(** *** The store *)

Lemma lookup_map_cells (g : cell -> cell) (c : string) (cols : list string)
  (r : list cell) :
  g CNaN = CNaN -> lookup c cols (map g r) = g (lookup c cols r).
Proof.
  intro Hg. revert r. induction cols as [| c' cols IH]; intros [| x r]; simpl;
    try (now rewrite Hg).
  destruct (String.eqb c c'); [reflexivity | apply IH].
Qed.

Lemma read_field_option (options : list string) (s : string) :
  In s options ->
  options = hazard_type_options \/ options = severity_options ->
  read_field (CStr s) = CStr s.
Proof.
  intros Hin [-> | ->]; simpl in Hin;
    repeat (destruct Hin as [<- | Hin]; [reflexivity |]); contradiction.
Qed.

Lemma report_table_well_formed (df : DataFrame) :
  report_table df -> well_formed df.
Proof.
  intros [Hc Hr]. split; [assumption |].
  apply Forall_forall. intros r Hin. rewrite Forall_forall in Hr.
  exact (proj1 (Hr r Hin)).
Qed.

Lemma read_field_report (r : list cell) :
  report_like r ->
  report_like (map read_field r) /\ kept (map read_field r) = kept r.
Proof.
  intros [Hl [[ty [Hty Hto]] [[sv [Hsv Hso]] [Hst [t Ht]]]]].
  assert (Hk : forall c, lookup c schema (map read_field r)
                         = read_field (lookup c schema r))
    by (intro c; now apply lookup_map_cells).
  assert (E1 : read_field (CStr ty) = CStr ty)
    by (apply (read_field_option hazard_type_options); tauto).
  assert (E2 : read_field (CStr sv) = CStr sv)
    by (apply (read_field_option severity_options); tauto).
  split.
  - split; [now rewrite length_map |].
    rewrite !Hk, Hty, Hsv, Hst, Ht, E1, E2.
    split; [now exists ty |]. split; [now exists sv |].
    split; [reflexivity | now exists t].
  - unfold kept. cbn [map]. rewrite !Hk, Hty, Hsv, Hst, Ht, E1, E2.
    reflexivity.
Qed.

(** The store that reads missing values as pandas does keeps tables of
    reports, though it is not faithful. *)
Lemma na_csv_keeps_reports : keeps_reports na_csv.
Proof.
  intros df [Hc Hr].
  exists (mkDataFrame (columns df) (map (map read_field) (rows df))).
  assert (Hall : Forall (fun r => report_like (map read_field r) /\
                                  kept (map read_field r) = kept r) (rows df)).
  { apply Forall_forall. intros r Hin. rewrite Forall_forall in Hr.
    now apply read_field_report, Hr. }
  split; [| split].
  - unfold load_data_try, pd_read_csv. cbn [to_csv read_csv to_datetime na_csv].
    destruct (getcol "timestamp"
                (mkDataFrame (columns df) (map (map read_field) (rows df))))
      as [col |] eqn:Hg.
    + now rewrite (setcol_getcol_id _ _ _ Hg).
    + unfold getcol in Hg. cbn [columns] in Hg. rewrite Hc in Hg.
      discriminate Hg.
  - split; [exact Hc |]. cbn [rows]. apply Forall_forall. intros r' Hin.
    apply in_map_iff in Hin. destruct Hin as [r [<- Hin]].
    rewrite Forall_forall in Hall. exact (proj1 (Hall r Hin)).
  - cbn [rows]. rewrite map_map. apply map_ext_in. intros r Hin.
    rewrite Forall_forall in Hall. exact (proj2 (Hall r Hin)).
Qed.

(** C5, evaluated on the code with the store of pandas: a report from a
    reporter named NA is accepted and written as entered, and the load that
    follows reads the reporter back as missing, so that saving and loading
    does not give the table back; the store is not faithful. *)
Theorem na_reporter_is_read_back_missing :
  from_widgets na_reporter /\ fields_missing na_reporter = false /\
  out_rerun (submit_handler 7 na_reporter empty_table
               (mkWorld na_csv None None)) = true /\
  out_df (submit_handler 7 na_reporter empty_table (mkWorld na_csv None None))
  = mkDataFrame schema
      [[CFloat (19076 # 1000)%Q; CFloat (728777 # 10000)%Q; CStr "Fire";
        CStr "Critical"; CStr "Active"; CStr "NA"; CTime 7]] /\
  out_world (submit_handler 7 na_reporter empty_table
               (mkWorld na_csv None None))
  = save_data
      (out_df (submit_handler 7 na_reporter empty_table
                 (mkWorld na_csv None None)))
      (mkWorld na_csv None None) /\
  fst (fst (load_data
              (out_world
                 (submit_handler 7 na_reporter empty_table
                    (mkWorld na_csv None None)))))
  = inr (mkDataFrame schema
           [[CFloat (19076 # 1000)%Q; CFloat (728777 # 10000)%Q; CStr "Fire";
             CStr "Critical"; CStr "Active"; CNaN; CTime 7]]) /\
  ~ faithful na_csv.
Proof.
  split; [split; simpl; tauto |]. split; [reflexivity |].
  split; [reflexivity |]. split; [reflexivity |]. split; [reflexivity |].
  split; [reflexivity |].
  intro H.
  specialize (H (mkDataFrame schema
                   [[CFloat (19076 # 1000)%Q; CFloat (728777 # 10000)%Q;
                     CStr "Fire"; CStr "Critical"; CStr "Active"; CStr "NA";
                     CTime 7]])).
  assert (Hw : well_formed
                 (mkDataFrame schema
                    [[CFloat (19076 # 1000)%Q; CFloat (728777 # 10000)%Q;
                      CStr "Fire"; CStr "Critical"; CStr "Active"; CStr "NA";
                      CTime 7]]))
    by (split; [reflexivity | repeat constructor]).
  specialize (H Hw). vm_compute in H. discriminate H.
Qed.

(** *** Sessions *)

Lemma load_tracks (io : Csv) (w : World io) (K : list (list cell)) :
  keeps_reports io -> tracks w K ->
  exists d w1 shown,
    load_data w = (inr d, w1, shown) /\
    report_table d /\ map kept (rows d) = K /\ tracks w1 K.
Proof.
  intros Hio [Hfile Hcache]. unfold load_data.
  destruct (cache w) as [[d sh] |] eqn:Hc.
  - destruct Hcache as [Hd Hk]. exists d, w, sh.
    split; [reflexivity |]. split; [assumption |]. split; [assumption |].
    unfold tracks. rewrite Hc. now split.
  - unfold load_data_body. destruct (hazards_csv w) as [f |] eqn:Hf.
    + destruct Hfile as [df [-> [Hdf Hk]]].
      destruct (Hio df Hdf) as [df' [Hl [Hdf' Hk']]].
      rewrite Hl. do 3 eexists. split; [reflexivity |].
      split; [assumption |]. split; [congruence |].
      unfold tracks. cbn [hazards_csv cache].
      split; [now exists df | split; [assumption | congruence]].
    + subst K. cbn. do 3 eexists. split; [reflexivity |].
      assert (He : report_table (DataFrame_columns schema))
        by (split; [reflexivity | constructor]).
      split; [assumption |]. split; [reflexivity |].
      unfold tracks. cbn [hazards_csv cache]. split; [reflexivity | now split].
Qed.

Lemma new_row_report_like (now : Z) (f : Form) :
  from_widgets f ->
  report_like (map snd (new_record now f)) /\
  kept (map snd (new_record now f)) = kept_of (now, f).
Proof.
  intros [Hty Hsev]. split; [| reflexivity].
  split; [reflexivity |]. split; [now exists (hazard_type f) |].
  split; [now exists (severity f) |]. split; [reflexivity | now exists now].
Qed.

(** One run on a world that carries the reports [K]: a form that passes adds
    its report and asks for a rerun, any other form changes nothing. *)
Lemma run_tracks (io : Csv) (now : Z) (f : Form) (w : World io)
  (K : list (list cell)) :
  keeps_reports io -> from_widgets f -> tracks w K ->
  exists w',
    run now f w = (w', passes f) /\
    tracks w' (K ++ (if passes f then [kept_of (now, f)] else [])).
Proof.
  intros Hio Hf Ht.
  destruct (load_tracks io w K Hio Ht) as [d [w1 [shown [Hl [Hd [Hk Ht1]]]]]].
  unfold run, script_run. rewrite Hl. cbn [out_world out_rerun].
  unfold passes.
  destruct (submit_button f) eqn:Hs; [destruct (fields_missing f) eqn:Hm |];
    cbn [andb negb].
  - destruct (handler_rejects io now f d w1 Hs Hm) as [_ [-> [-> _]]].
    exists w1. split; [reflexivity | now rewrite app_nil_r].
  - destruct (handler_accepts io now f d w1 Hs Hm) as [_ [_ [Hp [Hcc Hr]]]].
    destruct (handler_appends io now f d w1 Hs Hm
                (report_table_well_formed d Hd)) as [Hdf _].
    destruct (new_row_report_like now f Hf) as [Hrow Hkept].
    rewrite Hr. eexists. split; [reflexivity |].
    unfold tracks. rewrite Hp, Hcc. split; [| exact I].
    eexists. split; [reflexivity |]. rewrite Hdf. cbn [columns rows].
    split.
    + split; [reflexivity |]. apply Forall_app. split; [exact (proj2 Hd) |].
      constructor; [assumption | constructor].
    + rewrite map_app. cbn [map]. now rewrite Hk, Hkept.
  - rewrite (handler_idle io now f d w1 Hs). cbn [out_world out_rerun].
    exists w1. split; [reflexivity | now rewrite app_nil_r].
Qed.

Lemma default_form_from_widgets : from_widgets default_form.
Proof.
  split; simpl; tauto.
Qed.

Lemma interaction_tracks (io : Csv) (now : Z) (f : Form) (w : World io)
  (K : list (list cell)) :
  keeps_reports io -> from_widgets f -> tracks w K ->
  tracks (interaction now f w)
    (K ++ (if passes f then [kept_of (now, f)] else [])).
Proof.
  intros Hio Hf Ht.
  destruct (run_tracks io now f w K Hio Hf Ht) as [w1 [Hr Ht1]].
  unfold interaction. rewrite Hr.
  destruct (passes f); [| assumption].
  destruct (run_tracks io now default_form w1 _ Hio
              default_form_from_widgets Ht1) as [w2 [Hr2 Ht2]].
  rewrite Hr2. cbn [fst].
  cbn [passes default_form submit_button andb] in Ht2.
  now rewrite app_nil_r in Ht2.
Qed.

Lemma session_tracks (io : Csv) (inputs : list (Z * Form)) :
  keeps_reports io ->
  Forall (fun nf => from_widgets (snd nf)) inputs ->
  forall (w : World io) (K : list (list cell)),
    tracks w K ->
    tracks (session inputs w) (K ++ map kept_of (passing inputs)).
Proof.
  intros Hio Hall. unfold session, passing.
  induction Hall as [| [now f] inputs Hf Hall IH]; intros w K Ht; simpl.
  - now rewrite app_nil_r.
  - pose proof (interaction_tracks io now f w K Hio Hf Ht) as Ht1.
    specialize (IH _ _ Ht1).
    destruct (passes f); simpl.
    + now rewrite <- app_assoc in IH.
    + now rewrite app_nil_r in IH.
Qed.

Lemma cold_world_tracks (io : Csv) : tracks (mkWorld io None None) [].
Proof.
  split; [reflexivity | exact I].
Qed.

Lemma kept_column (c : string) (i : nat) (rs : list (list cell))
  (K : list (list cell)) :
  (forall r, lookup c schema r = nth i (kept r) CNaN) ->
  map kept rs = K ->
  map (lookup c schema) rs = map (fun k => nth i k CNaN) K.
Proof.
  intros Hc <-. rewrite map_map. apply map_ext. exact Hc.
Qed.

(** With a store that keeps tables of reports, whatever the users do from
    the first run on, the table the script loads next has one row for each
    form that passed the handler, in the order of submission, and that row
    carries the hazard type and the severity chosen in the form, the status
    Active and the clock reading of its run. *)
Theorem session_stores_accepted_reports (io : Csv) (inputs : list (Z * Form)) :
  keeps_reports io ->
  Forall (fun nf => from_widgets (snd nf)) inputs ->
  exists df,
    fst (fst (load_data (session inputs (mkWorld io None None)))) = inr df /\
    well_formed df /\
    len df = List.length (passing inputs) /\
    getcol "hazard_type" df
    = Some (map (fun nf => CStr (hazard_type (snd nf))) (passing inputs)) /\
    getcol "severity" df
    = Some (map (fun nf => CStr (severity (snd nf))) (passing inputs)) /\
    getcol "status" df
    = Some (map (fun _ => CStr "Active") (passing inputs)) /\
    getcol "timestamp" df
    = Some (map (fun nf => CTime (fst nf)) (passing inputs)).
Proof.
  intros Hio Hall.
  pose proof (session_tracks io inputs Hio Hall _ _ (cold_world_tracks io))
    as Ht.
  cbn [app] in Ht.
  destruct (load_tracks io _ _ Hio Ht) as [d [w1 [shown [Hl [Hd [Hk _]]]]]].
  exists d. rewrite Hl. split; [reflexivity |].
  pose proof (report_table_well_formed d Hd) as Hw.
  split; [assumption |]. split.
  - unfold len. rewrite <- (length_map kept), Hk. apply length_map.
  - repeat split;
      (rewrite well_formed_getcol by (try assumption; simpl; tauto); f_equal).
    + rewrite (kept_column "hazard_type" 0 _ _ (fun r => eq_refl) Hk).
      now rewrite map_map.
    + rewrite (kept_column "severity" 1 _ _ (fun r => eq_refl) Hk).
      now rewrite map_map.
    + rewrite (kept_column "status" 2 _ _ (fun r => eq_refl) Hk).
      now rewrite map_map.
    + rewrite (kept_column "timestamp" 3 _ _ (fun r => eq_refl) Hk).
      now rewrite map_map.
Qed.

Lemma session_stores_accepted_reports_witness :
  keeps_reports na_csv /\
  Forall (fun nf => from_widgets (snd nf)) three_actions /\
  passing three_actions = [(7%Z, mumbai); (9%Z, na_reporter)] /\
  exists df,
    fst (fst (load_data (session three_actions (mkWorld na_csv None None))))
    = inr df /\
    well_formed df /\
    len df = List.length (passing three_actions) /\
    getcol "hazard_type" df
    = Some (map (fun nf => CStr (hazard_type (snd nf)))
              (passing three_actions)) /\
    getcol "severity" df
    = Some (map (fun nf => CStr (severity (snd nf))) (passing three_actions)) /\
    getcol "status" df
    = Some (map (fun _ => CStr "Active") (passing three_actions)) /\
    getcol "timestamp" df
    = Some (map (fun nf => CTime (fst nf)) (passing three_actions)).
Proof.
  assert (Hall : Forall (fun nf => from_widgets (snd nf)) three_actions)
    by (repeat constructor; simpl; tauto).
  split; [exact na_csv_keeps_reports |]. split; [exact Hall |].
  split; [reflexivity |].
  exact (session_stores_accepted_reports na_csv three_actions
           na_csv_keeps_reports Hall).
Defined.

Lemma active_incidents_all (rs : list (list cell)) :
  Forall (fun r => lookup "status" schema r = CStr "Active") rs ->
  active_incidents (mkDataFrame schema rs) = inr (List.length rs).
Proof.
  intro H. unfold active_incidents, getcol, getrows, len, eq_mask.
  cbn [columns rows]. change (has_column "status" schema) with true.
  cbn iota. f_equal. rewrite map_map.
  induction H as [| r rs Hr _ IH]; [reflexivity |].
  cbn [map select_rows]. rewrite Hr. cbn [cell_eqb].
  change (String.eqb "Active" "Active") with true. cbn iota.
  cbn [List.length]. now rewrite IH.
Qed.

(** With a store that keeps tables of reports, whatever the users do from
    the first run on, the table stays well formed, counts one report per
    form that passed, and every report in it is Active: the script never
    resolves, drops or duplicates a report. *)
Theorem session_reports_stay_active (io : Csv) (inputs : list (Z * Form)) :
  keeps_reports io ->
  Forall (fun nf => from_widgets (snd nf)) inputs ->
  exists df,
    fst (fst (load_data (session inputs (mkWorld io None None)))) = inr df /\
    well_formed df /\
    total_reports df
    = List.length (filter (fun nf => passes (snd nf)) inputs) /\
    active_incidents df = inr (total_reports df).
Proof.
  intros Hio Hall.
  pose proof (session_tracks io inputs Hio Hall _ _ (cold_world_tracks io))
    as Ht.
  cbn [app] in Ht.
  destruct (load_tracks io _ _ Hio Ht) as [d [w1 [shown [Hl [Hd [Hk _]]]]]].
  exists d. rewrite Hl. split; [reflexivity |].
  pose proof (report_table_well_formed d Hd) as Hw.
  split; [assumption |]. unfold total_reports. split.
  - unfold len. rewrite <- (length_map kept), Hk. apply length_map.
  - rewrite (well_formed_eta d Hw) at 1. unfold len.
    apply active_incidents_all. apply Forall_forall. intros r Hin.
    destruct Hd as [_ Hr]. rewrite Forall_forall in Hr.
    destruct (Hr r Hin) as [_ [_ [_ [Hst _]]]]. exact Hst.
Qed.

Lemma session_reports_stay_active_witness :
  keeps_reports na_csv /\
  Forall (fun nf => from_widgets (snd nf)) three_actions /\
  exists df,
    fst (fst (load_data (session three_actions (mkWorld na_csv None None))))
    = inr df /\
    well_formed df /\
    total_reports df
    = List.length (filter (fun nf => passes (snd nf)) three_actions) /\
    active_incidents df = inr (total_reports df).
Proof.
  assert (Hall : Forall (fun nf => from_widgets (snd nf)) three_actions)
    by (repeat constructor; simpl; tauto).
  split; [exact na_csv_keeps_reports |]. split; [exact Hall |].
  exact (session_reports_stay_active na_csv three_actions
           na_csv_keeps_reports Hall).
Defined.

(** The first run, without a file: the script loads the empty table, the
    three figures of the overview are zero, and each chart card shows its
    notice instead of a chart; nothing raises. *)
Theorem first_run_page (io : Csv) (w : World io) :
  hazards_csv w = None -> cache w = None ->
  exists df,
    fst (fst (load_data w)) = inr df /\
    empty df = true /\
    total_reports df = 0 /\
    active_incidents df = inr 0 /\
    high_severity df = inr 0 /\
    chart_card "hazard_type" df = inr (st_info "No data for bar chart.") /\
    chart_card "severity" df = inr (st_info "No data for bar chart.").
Proof.
  intros Hf Hc. exists (DataFrame_columns schema).
  unfold load_data, load_data_body, load_data_try, pd_read_csv.
  rewrite Hc, Hf. repeat split.
Qed.

Lemma first_run_page_witness :
  hazards_csv cold_start = None /\ cache cold_start = None /\
  exists df,
    fst (fst (load_data cold_start)) = inr df /\
    empty df = true /\
    total_reports df = 0 /\
    active_incidents df = inr 0 /\
    high_severity df = inr 0 /\
    chart_card "hazard_type" df = inr (st_info "No data for bar chart.") /\
    chart_card "severity" df = inr (st_info "No data for bar chart.").
Proof.
  split; [reflexivity |]. split; [reflexivity |].
  exact (first_run_page plain_csv cold_start eq_refl eq_refl).
Defined.
